(** * my_dashboard.py: the long-term and the intraday scan

    A shallow embedding of the analysis core of the Streamlit dashboard:
    the two ticker universes, [_update_progress],
    [find_long_term_suggestions] and [find_intraday_opportunities], and the
    ten properties the specification states about them.

    How the program is modelled:

    - Python floats are IEEE binary64 numbers, so they are Rocq's primitive
      floats; the literals [1.05], [0.995], [1.5] and [0.05] are read with
      the same round-to-nearest rule as Python reads them, comparisons with
      NaN are false, and [x / y] raises on a zero divisor.
    - A pandas frame is the list of its rows (bars), each with a timestamp
      and the Open, High, Low, Close and Volume fields; since the intraday
      scan asks whether the Volume column is there, a frame says whether it
      has one.  [min], [max] and [mean] skip NaN entries, as pandas does,
      and [mean] adds from left to right.
    - yfinance, the clock and the progress widget form the [World] a scan
      runs in.  A download returns a frame or raises; the clock is read
      once per ticker.  [bar.progress] may raise; the other Streamlit
      calls ([st.progress], [st.empty], [status_text.text], [st.warning])
      are taken to succeed.
    - The calls a scan makes on the widgets are recorded, in order, as a
      list of [ui_event]; a statement is a function from the state (the
      list [suggestions] and the screen) to an outcome and a new state, so
      that [try], [except] and [finally] read as in the source. *)

From Stdlib Require Import ZArith List String Ascii Bool Arith Lia.
From Stdlib Require Import Floats Uint63 DecimalString.
Import ListNotations.
Set Warnings "-inexact-float".
Local Open Scope string_scope.

(** ** Python values, exceptions and float operations *)

Inductive exn : Type :=
| KeyError (key : string)
| IndexError (msg : string)
| ZeroDivisionError (msg : string)
| ProviderError (msg : string).

(** [str(e)], as the long-term scan interpolates it into its warning. *)
Definition str_exn (e : exn) : string :=
  match e with
  | KeyError k => "'" ++ k ++ "'"
  | IndexError m => m
  | ZeroDivisionError m => m
  | ProviderError m => m
  end.

Inductive outcome (A : Type) : Type :=
| Ok (a : A)
| Raise (e : exn).
Arguments Ok {A} a.
Arguments Raise {A} e.

Definition is_raise {A} (o : outcome A) : bool :=
  match o with Ok _ => false | Raise _ => true end.

(** [x / y] on Python floats: a zero divisor (of either sign) raises. *)
Definition truediv (x y : float) : outcome float :=
  if (y =? 0)%float
  then Raise (ZeroDivisionError "float division by zero")
  else Ok (x / y)%float.

(** [min(a, b)]: the builtin keeps its first argument unless the second
    one is strictly smaller. *)
Definition py_min (a b : float) : float :=
  if (b <? a)%float then b else a.

(** [float(n)] for a non-negative Python int. *)
Definition float_of_nat (n : nat) : float :=
  PrimFloat.of_uint63 (Uint63.of_Z (Z.of_nat n)).

(** [str(n)] for a non-negative Python int. *)
Definition str_nat (n : nat) : string :=
  NilZero.string_of_uint (Nat.to_uint n).

(** *** The format specification [:.2f]

    Python renders the exact binary value, rounded to two decimals with
    ties going to the even neighbour.  [round_half_even a e] is the integer
    nearest to [a * 2^e]. *)
Definition round_half_even (a e : Z) : Z :=
  if (0 <=? e)%Z then (a * 2 ^ e)%Z
  else
    let d := (2 ^ (- e))%Z in
    let q := (a / d)%Z in
    let r := (a mod d)%Z in
    if (2 * r <? d)%Z then q
    else if (d <? 2 * r)%Z then (q + 1)%Z
    else if Z.even q then q else (q + 1)%Z.

Definition two_digits (n : Z) : string :=
  NilZero.string_of_uint (N.to_uint (Z.to_N (n / 10)))
  ++ NilZero.string_of_uint (N.to_uint (Z.to_N (n mod 10))).

(** The number of hundredths [:.2f] prints for a finite float with
    mantissa [m] and exponent [e]. *)
Definition hundredths (m : positive) (e : Z) : Z :=
  round_half_even (100 * Z.pos m) e.

Definition fixed2 (n : Z) : string :=
  NilZero.string_of_uint (N.to_uint (Z.to_N (n / 100)))
  ++ "." ++ two_digits (n mod 100).

Definition sign_prefix (s : bool) : string :=
  if s then "-" else EmptyString.

Definition format_2f (x : float) : string :=
  match Prim2SF x with
  | S754_nan => "nan"
  | S754_infinity s => sign_prefix s ++ "inf"
  | S754_zero s => sign_prefix s ++ "0.00"
  | S754_finite s m e => sign_prefix s ++ fixed2 (hundredths m e)
  end.

(** The currency prefix, byte for byte as the source file spells it. *)
Definition currency_prefix : string := "â‚¹".

(** [f"â‚¹{x:.2f}"] *)
Definition currency (x : float) : string := currency_prefix ++ format_2f x.

(** [f"{x:.2f}%"] *)
Definition percent (x : float) : string := format_2f x ++ "%".

(** ** pandas: series and frames *)

Definition Series := list float.

Definition dropna (s : Series) : Series :=
  filter (fun x => negb (is_nan x)) s.

(** [Series.min()], [Series.max()] and [Series.mean()] skip NaN entries and
    give NaN when nothing is left. *)
Definition series_min (s : Series) : float :=
  match dropna s with
  | [] => nan
  | x :: r => fold_left (fun acc y => if (y <? acc)%float then y else acc) r x
  end.

Definition series_max (s : Series) : float :=
  match dropna s with
  | [] => nan
  | x :: r => fold_left (fun acc y => if (acc <? y)%float then y else acc) r x
  end.

Definition series_sum (s : Series) : float :=
  fold_left (fun acc y => (acc + y)%float) (dropna s) 0%float.

Definition series_mean (s : Series) : float :=
  match dropna s with
  | [] => nan
  | _ :: _ => (series_sum s / float_of_nat (List.length (dropna s)))%float
  end.

(** [s.iloc[i]]: a negative position counts from the end. *)
Definition iloc (s : Series) (i : Z) : outcome float :=
  let n := Z.of_nat (List.length s) in
  let k := if (i <? 0)%Z then (i + n)%Z else i in
  if ((0 <=? k) && (k <? n))%Z
  then match nth_error s (Z.to_nat k) with
       | Some x => Ok x
       | None => Raise (IndexError "single positional indexer is out-of-bounds")
       end
  else Raise (IndexError "single positional indexer is out-of-bounds").

(** A slice bound, clipped as Python clips it. *)
Definition slice_bound (n b : Z) : Z :=
  if (b <? 0)%Z then Z.max (b + n) 0 else Z.min b n.

(** [s.iloc[start:stop]] *)
Definition iloc_slice {A} (s : list A) (start stop : Z) : list A :=
  let n := Z.of_nat (List.length s) in
  let lo := slice_bound n start in
  let hi := slice_bound n stop in
  firstn (Z.to_nat (hi - lo)) (skipn (Z.to_nat lo) s).

(** One observation: its timestamp and the OHLCV fields. *)
Record Timestamp : Type := {
  date : Z;          (* the calendar date, as an ordinal day number *)
  time_of_day : Z    (* seconds since midnight *)
}.

Record Bar : Type := {
  stamp : Timestamp;
  Open : float;
  High : float;
  Low : float;
  Close : float;
  Volume : float
}.

(** A price frame as yfinance delivers it: one row per timestamp, with the
    columns Open, High, Low and Close.  The intraday scan tests whether a
    Volume column is there, so its presence is part of the frame. *)
Record PriceFrame : Type := {
  rows : list Bar;
  has_volume : bool
}.

(** [df.empty] *)
Definition df_empty (df : PriceFrame) : bool :=
  match rows df with [] => true | _ :: _ => false end.

(** [df['Low']], [df['High']], ... *)
Definition column (field : Bar -> float) (df : PriceFrame) : Series :=
  map field (rows df).

(** [df[df.index.date == day]] *)
Definition on_date (day : Z) (df : PriceFrame) : PriceFrame :=
  {| rows := filter (fun b => (date (stamp b) =? day)%Z) (rows df);
     has_volume := has_volume df |}.

(** The batch download has its columns keyed by (field, ticker): it is a
    table from tickers to their groups of columns. *)
Definition BatchFrame := list (string * PriceFrame).

(** [data.loc[:, (slice(None), ticker)]] followed by [droplevel(1)]: the
    columns of one ticker, a [KeyError] when the batch has none. *)
Fixpoint loc_ticker (data : BatchFrame) (ticker : string) : outcome PriceFrame :=
  match data with
  | [] => Raise (KeyError ticker)
  | (t, df) :: rest =>
      if String.eqb t ticker then Ok df else loc_ticker rest ticker
  end.

(** ** The ticker universes *)

Definition NIFTY_50_STOCKS : list string := [
    "RELIANCE.NS"; "TCS.NS"; "HDFCBANK.NS"; "ICICIBANK.NS"; "INFY.NS";
    "HINDUNILVR.NS"; "BHARTIARTL.NS"; "ITC.NS"; "SBIN.NS"; "LICI.NS";
    "BAJFINANCE.NS"; "HCLTECH.NS"; "MARUTI.NS"; "KOTAKBANK.NS"; "LT.NS";
    "SUNPHARMA.NS"; "AXISBANK.NS"; "NTPC.NS"; "ONGC.NS"; "ADANIENT.NS";
    "TATAMOTORS.NS"; "ASIANPAINT.NS"; "WIPRO.NS"; "DMART.NS";
    "ULTRACEMCO.NS"; "COALINDIA.NS"; "BAJAJFINSV.NS"; "ADANIPORTS.NS";
    "POWERGRID.NS"; "NESTLEIND.NS"; "GRASIM.NS"; "SBILIFE.NS";
    "M&M.NS"; "JSWSTEEL.NS"; "TATASTEEL.NS"; "HDFCLIFE.NS";
    "INDUSINDBK.NS"; "BRITANNIA.NS"; "CIPLA.NS"; "DRREDDY.NS";
    "EICHERMOT.NS"; "HINDALCO.NS"; "HEROMOTOCO.NS"; "BPCL.NS";
    "DIVISLAB.NS"; "TECHM.NS"; "APOLLOHOSP.NS"; "TITAN.NS";
    "UPL.NS"; "SHREECEM.NS"
  ].

Definition NIFTY_100_STOCKS : list string := NIFTY_50_STOCKS ++ [
    "ADANIGREEN.NS"; "BAJAJ-AUTO.NS"; "CHOLAFIN.NS"; "GAIL.NS";
    "GODREJCP.NS"; "HAVELLS.NS"; "ICICIPRULI.NS"; "IOC.NS";
    "PIDILITIND.NS"; "SIEMENS.NS"; "TATACONSUM.NS"; "TVSMOTOR.NS";
    "VEDL.NS"; "ZEEL.NS"; "AMBUJACEM.NS"; "BEL.NS"; "BOSCHLTD.NS";
    "DLF.NS"; "ICICIGI.NS"; "INDIGO.NS"; "MARICO.NS"; "PGHH.NS";
    "PNB.NS"; "SAIL.NS"; "SRF.NS"; "ZOMATO.NS"; "BANKBARODA.NS";
    "BERGEPAINT.NS"; "CANBK.NS"; "DABUR.NS"; "HAL.NS";
    "IDFCFIRSTB.NS"; "INDUSTOWER.NS"; "JINDALSTEL.NS"; "LTIM.NS";
    "MOTHERSON.NS"; "PETRONET.NS"; "PIIND.NS"; "SHRIRAMFIN.NS";
    "TATAPOWER.NS"; "TORNTPOWER.NS"; "TRENT.NS"; "AUROPHARMA.NS";
    "COLPAL.NS"; "HDFCAMC.NS"; "HINDPETRO.NS"; "IRCTC.NS"
  ].

(** ** The world outside the scans *)

Record World : Type := {
  (* yf.download(ticker, period="1y", progress=False, auto_adjust=False) *)
  yf_download : string -> outcome PriceFrame;
  (* yf.download(tickers=NIFTY_50_STOCKS, period="2d", interval="5m", ...) *)
  yf_download_batch : outcome BatchFrame;
  (* datetime.today().date(), as read while the ticker at position i is
     being processed *)
  today : nat -> Z;
  (* bar.progress(x): the widget may refuse the update *)
  bar_progress : float -> outcome unit
}.

(** The calls a scan makes on the presentation layer. *)
Inductive ui_event : Type :=
| StProgress (x : float)      (* st.progress(x): the bar is created *)
| StEmpty                     (* st.empty(): the status line is created *)
| StatusText (s : string)     (* status_text.text(s) *)
| StWarning (s : string)      (* st.warning(s) *)
| BarProgress (x : float).    (* bar.progress(x) *)

(** The rows of the two result tables (the dictionaries the scans append). *)
Record SuggestionRecord : Type := {
  sr_Stock : string;
  sr_CMP : string;
  sr_52Wk_Low : string;
  sr_52Wk_High : string;
  sr_Upside_Potential : string
}.

Record OpportunityRecord : Type := {
  or_Stock : string;
  or_CMP : string;
  or_Condition : string;
  or_Entry : string;
  or_Target : string;
  or_Stop_Loss : string
}.

(** ** Statements with effects

    A statement runs on the scan's local list [suggestions] and on the
    screen; it ends normally or raises, and what it did before raising
    stays done. *)
Record state (R : Type) : Type := {
  suggestions : list R;
  screen : list ui_event
}.
Arguments suggestions {R} s.
Arguments screen {R} s.

Definition M (R A : Type) : Type := state R -> outcome A * state R.

Definition ret {R A} (a : A) : M R A := fun st => (Ok a, st).

Definition bind {R A B} (m : M R A) (k : A -> M R B) : M R B :=
  fun st =>
    match m st with
    | (Ok a, st1) => k a st1
    | (Raise e, st1) => (Raise e, st1)
    end.

Notation "x <- m ;; k" := (bind m (fun x => k))
  (at level 61, m at next level, right associativity).
Notation "m ;; k" := (bind m (fun _ => k))
  (at level 61, right associativity).

(** A pure computation that may raise. *)
Definition lift {R A} (o : outcome A) : M R A := fun st => (o, st).

(** A call on the presentation layer. *)
Definition emit {R} (ev : ui_event) : M R unit :=
  fun st => (Ok tt, {| suggestions := suggestions st;
                       screen := screen st ++ [ev] |}).

(** [suggestions.append(r)] *)
Definition append {R} (r : R) : M R unit :=
  fun st => (Ok tt, {| suggestions := suggestions st ++ [r];
                       screen := screen st |}).

(** [try: body except Exception as e: handler(e)] *)
Definition try_except {R A} (body : M R A) (handler : exn -> M R A) : M R A :=
  fun st =>
    match body st with
    | (Ok a, st1) => (Ok a, st1)
    | (Raise e, st1) => handler e st1
    end.

(** [try: body finally: final]: [final] runs on both exits, and an
    exception of its own replaces the pending one. *)
Definition try_finally {R A} (body : M R A) (final : M R unit) : M R A :=
  fun st =>
    match body st with
    | (o, st1) =>
        match final st1 with
        | (Ok _, st2) => (o, st2)
        | (Raise e, st2) => (Raise e, st2)
        end
    end.

(** [for x in l: body(x)] *)
Fixpoint for_each {R A} (body : A -> M R unit) (l : list A) : M R unit :=
  match l with
  | [] => ret tt
  | x :: rest => body x ;; for_each body rest
  end.

(** [enumerate(l)] *)
Definition enumerate {A} (l : list A) : list (nat * A) :=
  combine (seq 0 (List.length l)) l.

(** ** Helper: Streamlit progress safe update *)

Definition _update_progress {R} (w : World) (i total : nat) : M R unit :=
  try_except
    (x <- lift (truediv (float_of_nat (i + 1)) (float_of_nat total)) ;;
     emit (BarProgress (py_min 1 x)) ;;
     lift (bar_progress w (py_min 1 x)))
    (fun _ => ret tt).

(** ** The long-term scan *)

Definition analyzing (ticker : string) (i total : nat) : string :=
  "Analyzing " ++ ticker ++ " (" ++ str_nat (i + 1) ++ "/" ++ str_nat total
  ++ ")â€¦".

(** The body of the [try] block of the long-term loop. *)
Definition long_term_try (w : World) (i : nat) (ticker : string)
  : M SuggestionRecord unit :=
  emit (StatusText (analyzing ticker i (List.length NIFTY_100_STOCKS))) ;;
  stock_data <- lift (yf_download w ticker) ;;
  if negb (df_empty stock_data) then
    let fifty_two_week_low := series_min (column Low stock_data) in
    let fifty_two_week_high := series_max (column High stock_data) in
    current_price <- lift (iloc (column Close stock_data) (-1)) ;;
    (* Within 5% of 52-week low *)
    if (current_price <=? fifty_two_week_low * 1.05)%float then
      ratio <- lift (truediv (fifty_two_week_high - current_price)%float
                             current_price) ;;
      append {| sr_Stock := ticker;
                sr_CMP := currency current_price;
                sr_52Wk_Low := currency fifty_two_week_low;
                sr_52Wk_High := currency fifty_two_week_high;
                sr_Upside_Potential := percent (ratio * 100)%float |}
    else ret tt
  else ret tt.

Definition long_term_warning (ticker : string) (e : exn) : string :=
  "Could not analyze " ++ ticker ++ ". Error: " ++ str_exn e.

(** One turn of the loop: [try ... except ... finally ...]. *)
Definition long_term_body (w : World) (it : nat * string)
  : M SuggestionRecord unit :=
  let (i, ticker) := it in
  try_finally
    (try_except (long_term_try w i ticker)
                (fun e => emit (StWarning (long_term_warning ticker e))))
    (_update_progress w i (List.length NIFTY_100_STOCKS)).

Definition long_term_scan (w : World) : M SuggestionRecord (list SuggestionRecord) :=
  emit (StProgress 0) ;;
  emit StEmpty ;;
  for_each (long_term_body w) (enumerate NIFTY_100_STOCKS) ;;
  emit (StatusText "Analysis Complete!") ;;
  fun st => (Ok (suggestions st), st).

(** [find_long_term_suggestions()], called with the screen as it is: the
    table it returns (or the exception that leaves it) and the screen
    afterwards.  The list [suggestions] starts empty on every call. *)
Definition find_long_term_suggestions (w : World) (scr : list ui_event)
  : outcome (list SuggestionRecord) * list ui_event :=
  let (o, st) := long_term_scan w {| suggestions := []; screen := scr |} in
  (o, screen st).

(** ** The intraday scan *)

(** Lines 126-136: the average volume of the bars before the last one and
    the volume of the last one, or two zeros when there is no baseline. *)
Definition volume_stats (today_data : PriceFrame) : outcome (float * float) :=
  if has_volume today_data then
    let recent_vol := iloc_slice (column Volume today_data) (-10) (-1) in
    match recent_vol with
    | _ :: _ =>
        match iloc (column Volume today_data) (-1) with
        | Ok last_volume => Ok (series_mean recent_vol, last_volume)
        | Raise e => Raise e
        end
    | [] => Ok (0%float, 0%float)
    end
  else Ok (0%float, 0%float).

(** The body of the [try] block of the intraday loop. *)
Definition intraday_try (w : World) (data : BatchFrame) (i : nat)
  (ticker : string) : M OpportunityRecord unit :=
  emit (StatusText (analyzing ticker i (List.length NIFTY_50_STOCKS))) ;;
  ticker_frame <- lift (loc_ticker data ticker) ;;
  if negb (df_empty ticker_frame) then
    let today_data := on_date (today w i) ticker_frame in
    if negb (df_empty today_data) then
      last_price <- lift (iloc (column Close today_data) (-1)) ;;
      let day_high := series_max (column High today_data) in
      day_open <- lift (iloc (column Open today_data) 0) ;;
      if ((day_open <? last_price) && (day_high * 0.995 <=? last_price))%float
      then
        vols <- lift (volume_stats today_data) ;;
        let (avg_volume, last_volume) := vols in
        if ((avg_volume =? 0) || (avg_volume * 1.5 <? last_volume))%float then
          let entry_price := (day_high + 0.05)%float in
          let stop_loss := day_open in
          let risk := (entry_price - stop_loss)%float in
          let target := (entry_price + risk * 1.5)%float in
          if (0 <? risk)%float then
            append {| or_Stock := ticker;
                      or_CMP := currency last_price;
                      or_Condition := "Near Day High + Volume Spike";
                      or_Entry := currency entry_price;
                      or_Target := currency target;
                      or_Stop_Loss := currency stop_loss |}
          else ret tt
        else ret tt
      else ret tt
    else ret tt
  else ret tt.

(** One turn of the loop: [try ... except Exception: pass finally ...]. *)
Definition intraday_body (w : World) (data : BatchFrame) (it : nat * string)
  : M OpportunityRecord unit :=
  let (i, ticker) := it in
  try_finally
    (try_except (intraday_try w data i ticker) (fun _ => ret tt))
    (_update_progress w i (List.length NIFTY_50_STOCKS)).

Definition intraday_scan (w : World)
  : M OpportunityRecord (list OpportunityRecord) :=
  emit (StProgress 0) ;;
  emit StEmpty ;;
  data <- lift (yf_download_batch w) ;;
  for_each (intraday_body w data) (enumerate NIFTY_50_STOCKS) ;;
  emit (StatusText "Analysis Complete!") ;;
  fun st => (Ok (suggestions st), st).

(** [find_intraday_opportunities()] *)
Definition find_intraday_opportunities (w : World) (scr : list ui_event)
  : outcome (list OpportunityRecord) * list ui_event :=
  let (o, st) := intraday_scan w {| suggestions := []; screen := scr |} in
  (o, screen st).

(** ** Reading a run *)

Definition table {R} (run : outcome (list R) * list ui_event) : list R :=
  match fst run with Ok t => t | Raise _ => [] end.

Definition warnings (scr : list ui_event) : list string :=
  flat_map (fun ev => match ev with StWarning s => [s] | _ => [] end) scr.

Definition progress_reports (scr : list ui_event) : list float :=
  flat_map (fun ev => match ev with BarProgress x => [x] | _ => [] end) scr.

(** ** The rules in the specification's words

    These definitions follow the specification, not the code; the theorems
    below compare them with what the scans do. *)

Definition first_bar (df : PriceFrame) : option Bar := hd_error (rows df).

Definition last_bar (df : PriceFrame) : option Bar := hd_error (rev (rows df)).

(** "close_price <= min(Low over 1y) * 1.05", with the series' last close. *)
Definition near_52_week_low (df : PriceFrame) : Prop :=
  exists b, last_bar df = Some b /\
    (Close b <=? series_min (column Low df) * 1.05)%float = true.

(** The last close is a number one can divide by. *)
Definition nonzero_last_close (df : PriceFrame) : Prop :=
  exists b, last_bar df = Some b /\ (Close b =? 0)%float = false.

(** "up to the 9 bars preceding the most recent bar" *)
Definition prior_window {A} (l : list A) : list A :=
  skipn (List.length (removelast l) - 9) (removelast l).

(** The average volume of the prior window; 0 when there is no baseline. *)
Definition avg_volume_of_prior_window (bars : PriceFrame) : float :=
  if has_volume bars then
    match prior_window (column Volume bars) with
    | [] => 0%float
    | win => series_mean win
    end
  else 0%float.

(** Condition A: "last_close > today_open and
    last_close >= today_high * 0.995". *)
Definition near_high_breakout (bars : PriceFrame) : Prop :=
  exists b0 b1, first_bar bars = Some b0 /\ last_bar bars = Some b1 /\
    (Open b0 <? Close b1)%float = true /\
    (series_max (column High bars) * 0.995 <=? Close b1)%float = true.

(** Condition B: "avg_volume == 0 or last_volume > avg_volume * 1.5", with
    the volume of the last bar. *)
Definition volume_confirmation (bars : PriceFrame) : Prop :=
  exists b1, last_bar bars = Some b1 /\
    ((avg_volume_of_prior_window bars =? 0)%float = true \/
     (avg_volume_of_prior_window bars * 1.5 <? Volume b1)%float = true).

(** "risk = (today_high + 0.05) - today_open > 0" *)
Definition positive_risk (bars : PriceFrame) : Prop :=
  exists b0, first_bar bars = Some b0 /\
    (0 <? series_max (column High bars) + 0.05 - Open b0)%float = true.

Definition intraday_rule (bars : PriceFrame) : Prop :=
  rows bars <> [] /\ near_high_breakout bars /\ volume_confirmation bars
  /\ positive_risk bars.

(** A table has a row for the ticker. *)
Definition suggests (t : list SuggestionRecord) (ticker : string) : Prop :=
  exists r, In r t /\ sr_Stock r = ticker.

Definition proposes (t : list OpportunityRecord) (ticker : string) : Prop :=
  exists r, In r t /\ or_Stock r = ticker.

(** Progress: "min(1.0, (i+1)/N)" after ticker i of N. *)
Definition expected_fraction (n i : nat) : float :=
  py_min 1 (float_of_nat (i + 1) / float_of_nat n)%float.

Definition expected_progress (n : nat) : list float :=
  map (expected_fraction n) (seq 0 n).

Fixpoint nondecreasing (l : list float) : bool :=
  match l with
  | x :: ((y :: _) as rest) => (x <=? y)%float && nondecreasing rest
  | _ => true
  end.

(** The tickers of a table keep the order of the universe: the first list
    is obtained from the second by dropping elements. *)
Inductive subsequence {A} : list A -> list A -> Prop :=
| subseq_nil : subsequence [] []
| subseq_skip x l1 l2 : subsequence l1 l2 -> subsequence l1 (x :: l2)
| subseq_keep x l1 l2 : subsequence l1 l2 -> subsequence (x :: l1) (x :: l2).

(** A bar with its volume blanked, and when two frames differ in their
    volumes only. *)
Definition without_volume (b : Bar) : Bar :=
  {| stamp := stamp b; Open := Open b; High := High b; Low := Low b;
     Close := Close b; Volume := 0 |}.

Definition same_prices (f1 f2 : PriceFrame) : Prop :=
  has_volume f1 = has_volume f2 /\
  map without_volume (rows f1) = map without_volume (rows f2).

(** ** The rules as decisions

    The same rules as functions that return the row to append, if any;
    they stand between the code and the rules above. *)

(** The row the long-term scan appends for a ticker whose series has the
    last bar [b]. *)
Definition suggestion_row (ticker : string) (df : PriceFrame) (b : Bar)
  : SuggestionRecord :=
  {| sr_Stock := ticker;
     sr_CMP := currency (Close b);
     sr_52Wk_Low := currency (series_min (column Low df));
     sr_52Wk_High := currency (series_max (column High df));
     sr_Upside_Potential :=
       percent ((series_max (column High df) - Close b) / Close b * 100)%float |}.

(** The long-term rule as a decision on a fetched series: the row when the
    last close is within the threshold and the upside can be computed. *)
Definition long_term_pick (ticker : string) (df : PriceFrame)
  : list SuggestionRecord :=
  match last_bar df with
  | Some b =>
      if ((Close b <=? series_min (column Low df) * 1.05)
          && negb (Close b =? 0))%float
      then [suggestion_row ticker df b]
      else []
  | None => []
  end.

(** The row the intraday scan appends for today's bars, with first bar
    [b0] and last bar [b1]. *)
Definition opportunity_row (ticker : string) (bars : PriceFrame) (b0 b1 : Bar)
  : OpportunityRecord :=
  let entry := (series_max (column High bars) + 0.05)%float in
  {| or_Stock := ticker;
     or_CMP := currency (Close b1);
     or_Condition := "Near Day High + Volume Spike";
     or_Entry := currency entry;
     or_Target := currency (entry + (entry - Open b0) * 1.5)%float;
     or_Stop_Loss := currency (Open b0) |}.

(** The intraday rule of the specification as a decision on today's bars:
    the row when the conditions A and B hold and the risk is positive. *)
Definition intraday_pick (ticker : string) (bars : PriceFrame)
  : list OpportunityRecord :=
  match first_bar bars, last_bar bars with
  | Some b0, Some b1 =>
      let high := series_max (column High bars) in
      let avg := avg_volume_of_prior_window bars in
      if ((Open b0 <? Close b1) && (high * 0.995 <=? Close b1)
          && ((avg =? 0) || (avg * 1.5 <? Volume b1))
          && (0 <? high + 0.05 - Open b0))%float
      then [opportunity_row ticker bars b0 b1]
      else []
  | _, _ => []
  end.

(** A list of strings without repetition, decided. *)
Fixpoint distinct (l : list string) : bool :=
  match l with
  | [] => true
  | x :: rest => negb (existsb (String.eqb x) rest) && distinct rest
  end.

(** ** What one turn of a loop does, read off the code *)

Definition start {R} : state R := {| suggestions := []; screen := [] |}.

(** The exception that ends the [try] block of a ticker, if any. *)
Definition raised {A} (o : outcome A) : option exn :=
  match o with Ok _ => None | Raise e => Some e end.

Definition long_term_failure (w : World) (i : nat) (ticker : string)
  : option exn :=
  raised (fst (long_term_try w i ticker start)).

Definition intraday_failure (w : World) (data : BatchFrame) (i : nat)
  (ticker : string) : option exn :=
  raised (fst (intraday_try w data i ticker start)).

(** The warnings the long-term scan owes: one per failing ticker. *)
Definition owed_warnings (w : World) : list string :=
  flat_map (fun it : nat * string =>
              match long_term_failure w (fst it) (snd it) with
              | Some e => [long_term_warning (snd it) e]
              | None => []
              end)
           (enumerate NIFTY_100_STOCKS).

Definition other_than (ticker : string) (s : string) : bool :=
  negb (String.eqb s ticker).

(** What a statement adds to the state it runs on. *)
Definition extend {R} (st d : state R) : state R :=
  {| suggestions := suggestions st ++ suggestions d;
     screen := screen st ++ screen d |}.

(** A statement that only appends: its result and what it adds do not
    depend on the state it starts from. *)
Definition appends {R A} (m : M R A) : Prop :=
  forall st, m st = (fst (m start), extend st (snd (m start))).

(** The rows and the widget calls of one turn of each loop. *)
Definition long_term_rows (w : World) (it : nat * string)
  : list SuggestionRecord :=
  suggestions (snd (long_term_body w it start)).

Definition long_term_calls (w : World) (it : nat * string) : list ui_event :=
  screen (snd (long_term_body w it start)).

Definition intraday_rows (w : World) (data : BatchFrame) (it : nat * string)
  : list OpportunityRecord :=
  suggestions (snd (intraday_body w data it start)).

Definition intraday_calls (w : World) (data : BatchFrame) (it : nat * string)
  : list ui_event :=
  screen (snd (intraday_body w data it start)).

(** The state a turn has built when all it did was set the status line. *)
Definition status_only {R} (ticker : string) (i total : nat) : state R :=
  {| suggestions := []; screen := [StatusText (analyzing ticker i total)] |}.

(** ** Sample data

    Concrete series and worlds on which the scans are run below. *)

Definition bar (d : Z) (o h l c v : float) : Bar :=
  {| stamp := {| date := d; time_of_day := 0 |};
     Open := o; High := h; Low := l; Close := c; Volume := v |}.

(** The example of the specification: Low = [100, 90, 95],
    High = [110, 115, 105], last close 93. *)
Definition year_example : PriceFrame :=
  {| rows := [bar 1 100 110 100 105 1000; bar 2 95 115 90 100 1000;
              bar 3 96 105 95 93 1000];
     has_volume := true |}.

(** A series whose only bar quotes zero. *)
Definition zero_frame : PriceFrame :=
  {| rows := [bar 3 0 0 0 0 0]; has_volume := true |}.

Definition empty_frame : PriceFrame := {| rows := []; has_volume := true |}.

(** The intraday example of the specification, on day 7: open 100, high
    105, last close 104.7, volumes 1000, 1000 and then 1600; one bar of
    the day before precedes it. *)
Definition day_example : PriceFrame :=
  {| rows := [bar 6 99 99 99 99 5000;
              bar 7 100 101 100 101 1000; bar 7 101 105 100 104 1000;
              bar 7 104 105 104 104.7 1600];
     has_volume := true |}.

(** A day with a single bar, which rises from 100 to 101. *)
Definition single_bar_day : PriceFrame :=
  {| rows := [bar 7 100 101 100 101 12345]; has_volume := true |}.

Definition sample_download (ticker : string) : outcome PriceFrame :=
  if String.eqb ticker "TCS.NS" then Ok year_example
  else if String.eqb ticker "INFY.NS" then Ok zero_frame
  else if String.eqb ticker "ITC.NS" then Raise (ProviderError "No data found")
  else Ok empty_frame.

Definition sample_batch : BatchFrame :=
  [("TCS.NS", day_example); ("INFY.NS", single_bar_day)].

Definition sample_world : World :=
  {| yf_download := sample_download;
     yf_download_batch := Ok sample_batch;
     today := fun _ => 7%Z;
     bar_progress := fun _ => Ok tt |}.

(** The same fetched data, read one day later. *)
Definition next_day_world : World :=
  {| yf_download := sample_download;
     yf_download_batch := Ok sample_batch;
     today := fun _ => 8%Z;
     bar_progress := fun _ => Ok tt |}.

(** The provider is unreachable and the progress bar refuses updates. *)
Definition offline_world : World :=
  {| yf_download := fun _ => Raise (ProviderError "Connection refused");
     yf_download_batch := Raise (ProviderError "Connection refused");
     today := fun _ => 7%Z;
     bar_progress := fun _ => Raise (ProviderError "widget gone") |}.

(** The row the sample world's intraday scan emits for TCS.NS. *)
Definition sample_opportunity : OpportunityRecord :=
  opportunity_row "TCS.NS" (on_date 7 day_example)
    (bar 7 100 101 100 101 1000) (bar 7 104 105 104 104.7 1600).

(** A batch without columns, as yfinance returns it when every download
    failed, and a world that fetches it. *)
Definition empty_batch_world : World :=
  {| yf_download := sample_download;
     yf_download_batch := Ok [];
     today := fun _ => 7%Z;
     bar_progress := fun _ => Ok tt |}.

(** The sample batch with the bars of the day before removed or
    replaced: today's bars are the same. *)
Definition other_yesterday_batch : BatchFrame :=
  [("TCS.NS",
    {| rows := [bar 5 1 1 1 1 1; bar 6 2 2 2 2 2;
                bar 7 100 101 100 101 1000; bar 7 101 105 100 104 1000;
                bar 7 104 105 104 104.7 1600];
       has_volume := true |});
   ("INFY.NS", single_bar_day)].

Definition other_yesterday_world : World :=
  {| yf_download := sample_download;
     yf_download_batch := Ok other_yesterday_batch;
     today := fun _ => 7%Z;
     bar_progress := fun _ => Raise (ProviderError "widget gone") |}.

(** Twelve bars of one day, with volumes 1 to 12. *)
Definition twelve_bars : PriceFrame :=
  {| rows := map (fun k => bar 7 100 101 99 100 (float_of_nat k)) (seq 1 12);
     has_volume := true |}.

(** The intraday example with a NaN close in the last bar of TCS.NS. *)
Definition nan_close_day : PriceFrame :=
  {| rows := [bar 7 100 101 100 101 1000; bar 7 101 105 100 104 1000;
              bar 7 104 105 104 nan 1600];
     has_volume := true |}.

Definition nan_close_batch : BatchFrame := [("TCS.NS", nan_close_day)].

Definition nan_close_world : World :=
  {| yf_download := sample_download;
     yf_download_batch := Ok nan_close_batch;
     today := fun _ => 7%Z;
     bar_progress := fun _ => Ok tt |}.

(** The sample world with a progress bar that refuses every update. *)
Definition refusing_bar_world : World :=
  {| yf_download := sample_download;
     yf_download_batch := Ok sample_batch;
     today := fun _ => 7%Z;
     bar_progress := fun _ => Raise (ProviderError "widget gone") |}.

(** ** The page script

    The module's top-level statements (line 20 and lines 162-203): the
    calls they make on Streamlit, in order.  A visit is one run of the
    script: the world the scans run in, the text [strftime] renders for
    the caption, and which button was clicked.  The calls a scan makes on
    its widgets appear on the page as [Widget] events; [st.warning] is the
    same call in the scans and in the script. *)

Inductive page_event : Type :=
| SetPageConfig (page_title layout : string)
| Title (s : string)
| Caption (s : string)
| Markdown (s : string)
| Columns (n : nat)
| EnterColumn (k : nat)        (* with colK: *)
| LeaveColumn (k : nat)
| Header (s : string)
| Info (s : string)
| Button (label : string)
| EnterSpinner (s : string)    (* with st.spinner(s): *)
| LeaveSpinner
| Success (s : string)
| DataframeLongTerm (t : list SuggestionRecord)
| DataframeIntraday (t : list OpportunityRecord)
| Widget (ev : ui_event).

Record Visit : Type := {
  visit_world : World;
  (* datetime.now().strftime('%A, %B %d, %Y at %I:%M:%S %p IST') *)
  last_updated : string;
  (* what the two calls of st.button return *)
  long_term_clicked : bool;
  intraday_clicked : bool
}.

Definition Page (A : Type) : Type :=
  list page_event -> outcome A * list page_event.

Definition page_ret {A} (a : A) : Page A := fun evs => (Ok a, evs).

Definition page_bind {A B} (m : Page A) (k : A -> Page B) : Page B :=
  fun evs =>
    match m evs with
    | (Ok a, evs1) => k a evs1
    | (Raise e, evs1) => (Raise e, evs1)
    end.

Notation "x <~ m ;;; k" := (page_bind m (fun x => k))
  (at level 61, m at next level, right associativity).
Notation "m ;;; k" := (page_bind m (fun _ => k))
  (at level 61, right associativity).

Definition show (ev : page_event) : Page unit :=
  fun evs => (Ok tt, (evs ++ [ev])%list).

(** [st.button(label)]: the button is drawn and says whether it was
    clicked. *)
Definition button (label : string) (clicked : bool) : Page bool :=
  fun evs => (Ok clicked, (evs ++ [Button label])%list).

(** [with ctx: body]: the context is left on both exits and lets an
    exception of the body through. *)
Definition with_ {A} (enter leave : page_event) (body : Page A) : Page A :=
  fun evs =>
    match body (evs ++ [enter])%list with
    | (o, evs1) => (o, (evs1 ++ [leave])%list)
    end.

(** The two scans, called from the page. *)
Definition call_long_term (w : World) : Page (list SuggestionRecord) :=
  fun evs =>
    match find_long_term_suggestions w [] with
    | (o, scr) => (o, (evs ++ map Widget scr)%list)
    end.

Definition call_intraday (w : World) : Page (list OpportunityRecord) :=
  fun evs =>
    match find_intraday_opportunities w [] with
    | (o, scr) => (o, (evs ++ map Widget scr)%list)
    end.

(** [results.empty] for a table built from the list of rows. *)
Definition results_empty {R} (t : list R) : bool :=
  match t with [] => true | _ :: _ => false end.

Definition title_text : string := "ðŸ“ˆ Personal Stock Suggestion Dashboard".
Definition long_term_header : string := "ðŸ§­ Long-Term Strategy".
Definition long_term_info : string := "Finds (Nifty 100) stocks trading within 5% of their 52-week low.".
Definition long_term_button : string := "Find Long-Term Investments".
Definition long_term_spinner : string := "Analyzing NSE 100 stocksâ€¦ This might take a minute.".
Definition no_long_term_text : string := "No stocks currently meet the long-term investment criteria.".
Definition intraday_header : string := "âš¡ Intraday Strategy".
Definition intraday_info : string := "Scans high-liquidity (Nifty 50) stocks for potential intraday breakout opportunities.".
Definition intraday_button : string := "Find Intraday Opportunities".
Definition intraday_spinner : string := "Analyzing Nifty 50 for intraday actionâ€¦".
Definition no_intraday_text : string := "No stocks currently meet the intraday breakout criteria.".
Definition disclaimer_text : string := "
**Disclaimer:** This is an automated tool for educational purposes only and not financial advice.
Market data is provided by Yahoo Finance and may have delays. Always conduct your own research and
consult with a qualified financial advisor before making any investment decisions.
".

(** [f"Found {len(long_term_results)} potential long-term investment(s)!"] *)
Definition found_long_term (n : nat) : string :=
  "Found " ++ str_nat n ++ " potential long-term investment(s)!".

(** [f"Found {len(intraday_results)} potential intraday opportunit(y/ies)!"] *)
Definition found_intraday (n : nat) : string :=
  "Found " ++ str_nat n ++ " potential intraday opportunit(y/ies)!".

(** Lines 172-182. *)
Definition long_term_column (v : Visit) : Page unit :=
  show (Header long_term_header) ;;;
  show (Info long_term_info) ;;;
  clicked <~ button long_term_button (long_term_clicked v) ;;;
  if clicked then
    long_term_results <~ with_ (EnterSpinner long_term_spinner) LeaveSpinner
                 (call_long_term (visit_world v)) ;;;
    if negb (results_empty long_term_results) then
      show (Success (found_long_term (List.length long_term_results))) ;;;
      show (DataframeLongTerm long_term_results)
    else show (Widget (StWarning no_long_term_text))
  else page_ret tt.

(** Lines 184-194. *)
Definition intraday_column (v : Visit) : Page unit :=
  show (Header intraday_header) ;;;
  show (Info intraday_info) ;;;
  clicked <~ button intraday_button (intraday_clicked v) ;;;
  if clicked then
    intraday_results <~ with_ (EnterSpinner intraday_spinner) LeaveSpinner
                 (call_intraday (visit_world v)) ;;;
    if negb (results_empty intraday_results) then
      show (Success (found_intraday (List.length intraday_results))) ;;;
      show (DataframeIntraday intraday_results)
    else show (Widget (StWarning no_intraday_text))
  else page_ret tt.

(** The script of [my_dashboard.py], run from an empty page. *)
Definition my_dashboard (v : Visit) : outcome unit * list page_event :=
  (show (SetPageConfig "Stock Suggestion Dashboard" "wide") ;;;
   show (Title title_text) ;;;
   show (Caption ("Last Updated: " ++ last_updated v)) ;;;
   show (Markdown "---") ;;;
   show (Columns 2) ;;;
   with_ (EnterColumn 1) (LeaveColumn 1) (long_term_column v) ;;;
   with_ (EnterColumn 2) (LeaveColumn 2) (intraday_column v) ;;;
   show (Markdown "---") ;;;
   show (Widget (StWarning disclaimer_text))) [].

(** What the visitor reads on a page. *)
Definition successes (evs : list page_event) : list string :=
  flat_map (fun ev => match ev with Success s => [s] | _ => [] end) evs.

Definition page_warnings (evs : list page_event) : list string :=
  flat_map (fun ev => match ev with Widget (StWarning s) => [s] | _ => [] end)
           evs.

Definition long_term_tables (evs : list page_event)
  : list (list SuggestionRecord) :=
  flat_map (fun ev => match ev with DataframeLongTerm t => [t] | _ => [] end)
           evs.

Definition intraday_tables (evs : list page_event)
  : list (list OpportunityRecord) :=
  flat_map (fun ev => match ev with DataframeIntraday t => [t] | _ => [] end)
           evs.

(** The contexts that are open at the end of a list of calls, innermost
    first; [None] when a context is left that is not the innermost open
    one. *)
Fixpoint open_contexts (evs : list page_event) (stack : list page_event)
  : option (list page_event) :=
  match evs with
  | [] => Some stack
  | EnterColumn k :: rest => open_contexts rest (EnterColumn k :: stack)
  | EnterSpinner s :: rest => open_contexts rest (EnterSpinner s :: stack)
  | LeaveColumn k :: rest =>
      match stack with
      | EnterColumn k' :: stack' =>
          if Nat.eqb k k' then open_contexts rest stack' else None
      | _ => None
      end
  | LeaveSpinner :: rest =>
      match stack with
      | EnterSpinner _ :: stack' => open_contexts rest stack'
      | _ => None
      end
  | _ :: rest => open_contexts rest stack
  end.

(** Visits to run the script on. *)
Definition sample_visit : Visit :=
  {| visit_world := sample_world;
     last_updated := "Wednesday, November 04, 2026 at 01:30:00 PM IST";
     long_term_clicked := true;
     intraday_clicked := true |}.

Definition offline_visit : Visit :=
  {| visit_world := offline_world;
     last_updated := "Wednesday, November 04, 2026 at 01:30:00 PM IST";
     long_term_clicked := true;
     intraday_clicked := true |}.

Definition idle_visit : Visit :=
  {| visit_world := offline_world;
     last_updated := "Wednesday, November 04, 2026 at 01:30:00 PM IST";
     long_term_clicked := false;
     intraday_clicked := false |}.

(** What a column adds to the page, read off the script: the three static
    calls, then, after a click, the spinner around the scan's widget calls
    and the verdict. *)
Definition long_term_verdict (t : list SuggestionRecord) : list page_event :=
  if results_empty t then [Widget (StWarning no_long_term_text)]
  else [Success (found_long_term (List.length t)); DataframeLongTerm t].

Definition intraday_verdict (o : outcome (list OpportunityRecord))
  : list page_event :=
  match o with
  | Raise _ => []
  | Ok t =>
      if results_empty t then [Widget (StWarning no_intraday_text)]
      else [Success (found_intraday (List.length t)); DataframeIntraday t]
  end.

Definition long_term_section (v : Visit) : list page_event :=
  [Header long_term_header; Info long_term_info; Button long_term_button]
  ++ (if long_term_clicked v then
        EnterSpinner long_term_spinner
        :: map Widget (snd (find_long_term_suggestions (visit_world v) []))
        ++ LeaveSpinner
        :: long_term_verdict
             (table (find_long_term_suggestions (visit_world v) []))
      else [])%list.

Definition intraday_section (v : Visit) : list page_event :=
  [Header intraday_header; Info intraday_info; Button intraday_button]
  ++ (if intraday_clicked v then
        EnterSpinner intraday_spinner
        :: map Widget (snd (find_intraday_opportunities (visit_world v) []))
        ++ LeaveSpinner
        :: intraday_verdict
             (fst (find_intraday_opportunities (visit_world v) []))
      else [])%list.

Definition page_top (v : Visit) : list page_event :=
  [SetPageConfig "Stock Suggestion Dashboard" "wide"; Title title_text;
   Caption ("Last Updated: " ++ last_updated v); Markdown "---"; Columns 2].

Definition page_bottom : list page_event :=
  [Markdown "---"; Widget (StWarning disclaimer_text)].

(** Whether the intraday column lets the script go on. *)
Definition intraday_stops (v : Visit) : option exn :=
  if intraday_clicked v then raised (yf_download_batch (visit_world v))
  else None.

(** The table a column has to report on: the scan's table after a click,
    nothing otherwise (and nothing when the scan raised). *)
Definition shown_long_term (v : Visit) : list SuggestionRecord :=
  if long_term_clicked v
  then table (find_long_term_suggestions (visit_world v) [])
  else [].

Definition shown_intraday (v : Visit) : list OpportunityRecord :=
  if intraday_clicked v
  then table (find_intraday_opportunities (visit_world v) [])
  else [].

(** * Proofs *)

Local Open Scope list_scope.

(** ** Statements that only append *)

Section Appends.
Context {R : Type}.

Lemma extend_start_r (st : state R) : extend st start = st.
Proof. destruct st; unfold extend; simpl; now rewrite !app_nil_r. Qed.

Lemma extend_assoc (a b c : state R) :
  extend (extend a b) c = extend a (extend b c).
Proof. unfold extend; simpl; now rewrite !app_assoc. Qed.

Lemma appends_ret {A} (a : A) : appends (@ret R A a).
Proof. intros st; unfold ret; simpl; now rewrite extend_start_r. Qed.

Lemma appends_lift {A} (o : outcome A) : appends (@lift R A o).
Proof. intros st; unfold lift; simpl; now rewrite extend_start_r. Qed.

Lemma appends_emit ev : appends (@emit R ev).
Proof. intros st; unfold emit, extend; simpl; now rewrite app_nil_r. Qed.

Lemma appends_append (r : R) : appends (append r).
Proof. intros st; unfold append, extend; simpl; now rewrite app_nil_r. Qed.

Lemma appends_bind {A B} (m : M R A) (k : A -> M R B) :
  appends m -> (forall a, appends (k a)) -> appends (bind m k).
Proof.
  intros Hm Hk st. unfold bind.
  rewrite (Hm st). destruct (m start) as [[a | e] d]; simpl.
  - rewrite (Hk a (extend st d)), (Hk a d).
    simpl. now rewrite extend_assoc.
  - reflexivity.
Qed.

Lemma appends_try_except {A} (body : M R A) handler :
  appends body -> (forall e, appends (handler e)) ->
  appends (try_except body handler).
Proof.
  intros Hb Hh st. unfold try_except.
  rewrite (Hb st). destruct (body start) as [[a | e] d]; simpl.
  - reflexivity.
  - rewrite (Hh e (extend st d)), (Hh e d).
    simpl. now rewrite extend_assoc.
Qed.

Lemma appends_try_finally {A} (body : M R A) final :
  appends body -> appends final -> appends (try_finally body final).
Proof.
  intros Hb Hf st. unfold try_finally.
  rewrite (Hb st). destruct (body start) as [o d]; simpl.
  rewrite (Hf (extend st d)), (Hf d).
  destruct (final start) as [[u | e] d']; simpl;
    now rewrite extend_assoc.
Qed.

(** A loop whose turns only append and never raise adds, turn after
    turn, what each turn adds. *)
Lemma for_each_adds {A} (body : A -> M R unit) :
  (forall x, appends (body x)) ->
  (forall x, fst (body x start) = Ok tt) ->
  forall l st,
    for_each body l st =
    (Ok tt,
     extend st
       {| suggestions := flat_map (fun x => suggestions (snd (body x start))) l;
          screen := flat_map (fun x => screen (snd (body x start))) l |}).
Proof.
  intros Happ Hok l; induction l as [| x l IH]; intros st; simpl.
  - unfold ret. f_equal. symmetry. apply extend_start_r.
  - unfold bind. rewrite (Happ x st), (Hok x).
    rewrite IH. f_equal. rewrite extend_assoc. f_equal.
Qed.
End Appends.

Ltac appends_step :=
  first
    [ apply appends_ret | apply appends_lift | apply appends_emit
    | apply appends_append
    | apply appends_bind; [ | intros ? ]
    | apply appends_try_except; [ | intros ? ]
    | apply appends_try_finally
    | match goal with
      | |- appends (if ?b then _ else _) => destruct b
      | |- appends (let (_, _) := ?p in _) => destruct p
      end ].

Ltac appends_auto := repeat appends_step.

(** ** The universes *)

Lemma length_NIFTY_50 : List.length NIFTY_50_STOCKS = 50.
Proof. reflexivity. Qed.

Lemma length_NIFTY_100 : List.length NIFTY_100_STOCKS = 97.
Proof. reflexivity. Qed.

(** ** The progress helper *)

Lemma update_progress_appends {R} w i total :
  appends (@_update_progress R w i total).
Proof. unfold _update_progress. appends_auto. Qed.

Lemma update_progress_run {R} w i total :
  (float_of_nat total =? 0)%float = false ->
  @_update_progress R w i total start =
  (Ok tt, {| suggestions := []; screen := [BarProgress (expected_fraction total i)] |}).
Proof.
  intros Htotal.
  unfold _update_progress, try_except, bind, lift, truediv, emit, ret,
    expected_fraction.
  rewrite Htotal. simpl.
  destruct (bar_progress w _) as [[] | e]; reflexivity.
Qed.

(** The helper never raises, whatever the total and the widget do. *)
Lemma update_progress_ok {R} w i total (st : state R) :
  fst (_update_progress w i total st) = Ok tt.
Proof.
  unfold _update_progress, try_except, bind, lift, truediv, emit, ret.
  destruct (float_of_nat total =? 0)%float; simpl; [reflexivity |].
  destruct (bar_progress w _) as [[] | e]; reflexivity.
Qed.

(** ** The long-term loop *)

Lemma long_term_try_appends w i ticker : appends (long_term_try w i ticker).
Proof. unfold long_term_try. appends_auto. Qed.

Lemma long_term_body_appends w it : appends (long_term_body w it).
Proof.
  destruct it as [i ticker]. unfold long_term_body.
  apply appends_try_finally.
  - apply appends_try_except; [apply long_term_try_appends | intros; appends_auto].
  - apply update_progress_appends.
Qed.

Lemma long_term_body_ok w it : fst (long_term_body w it start) = Ok tt.
Proof.
  destruct it as [i ticker]. unfold long_term_body, try_finally.
  destruct (try_except _ _ start) as [o st1] eqn:Hbody.
  pose proof (update_progress_ok w i (List.length NIFTY_100_STOCKS) st1) as Hfin.
  destruct (_update_progress w i _ st1) as [[[] | e] st2]; simpl in Hfin;
    [ | discriminate ].
  simpl. unfold try_except in Hbody.
  destruct (long_term_try w i ticker start) as [[[] | e] st0].
  - now inversion Hbody.
  - unfold emit in Hbody. now inversion Hbody.
Qed.

(** The long-term scan always returns, and its table and screen are the
    rows and calls of its turns, in order. *)
Lemma long_term_run w scr :
  find_long_term_suggestions w scr =
  (Ok (flat_map (long_term_rows w) (enumerate NIFTY_100_STOCKS)),
   scr ++ StProgress 0 :: StEmpty ::
     flat_map (long_term_calls w) (enumerate NIFTY_100_STOCKS)
     ++ [StatusText "Analysis Complete!"]).
Proof.
  unfold find_long_term_suggestions, long_term_scan, bind, emit.
  cbv beta iota.
  rewrite (for_each_adds (long_term_body w) (long_term_body_appends w)
             (long_term_body_ok w)).
  unfold extend, long_term_rows, long_term_calls.
  cbn [suggestions screen app fst snd]. f_equal.
  rewrite <- !app_assoc. reflexivity.
Qed.

(** ** Positions in a series *)

Lemma iloc_last (s : Series) (a : float) : iloc (s ++ [a]) (-1) = Ok a.
Proof.
  unfold iloc. rewrite length_app. simpl List.length.
  replace (-1 <? 0)%Z with true by reflexivity.
  replace (-1 + Z.of_nat (List.length s + 1))%Z with (Z.of_nat (List.length s))
    by lia.
  replace ((0 <=? Z.of_nat (List.length s)) &&
           (Z.of_nat (List.length s) <? Z.of_nat (List.length s + 1)))%Z
    with true.
  - rewrite Nat2Z.id, nth_error_app2, Nat.sub_diag by lia. reflexivity.
  - symmetry. apply andb_true_intro. split; [apply Z.leb_le | apply Z.ltb_lt]; lia.
Qed.

Lemma iloc_first (s : Series) (a : float) : iloc (a :: s) 0 = Ok a.
Proof.
  unfold iloc. simpl List.length.
  replace (0 <? 0)%Z with false by reflexivity.
  replace ((0 <=? 0) && (0 <? Z.of_nat (S (List.length s))))%Z with true.
  - reflexivity.
  - symmetry. apply andb_true_intro. split; [apply Z.leb_le | apply Z.ltb_lt]; lia.
Qed.

(** A frame is empty, or it has a first and a last bar. *)
Lemma frame_cases (df : PriceFrame) :
  (rows df = [] /\ df_empty df = true /\ first_bar df = None /\ last_bar df = None)
  \/ (exists b0 b1 front back,
        rows df = b0 :: back /\ rows df = front ++ [b1] /\
        df_empty df = false /\
        first_bar df = Some b0 /\ last_bar df = Some b1).
Proof.
  unfold df_empty, first_bar, last_bar.
  destruct (rows df) as [| b0 back] eqn:Hrows.
  - left. repeat split; reflexivity.
  - right.
    destruct (exists_last (l := b0 :: back)) as (front & b1 & Hlast);
      [discriminate |].
    exists b0, b1, front, back.
    repeat split; try reflexivity; [exact Hlast |].
    rewrite Hlast, rev_app_distr. reflexivity.
Qed.

Lemma column_snoc field df front b1 :
  rows df = front ++ [b1] -> column field df = map field front ++ [field b1].
Proof. intros H; unfold column; now rewrite H, map_app. Qed.

Lemma column_cons field df b0 back :
  rows df = b0 :: back -> column field df = field b0 :: map field back.
Proof. intros H; unfold column; now rewrite H. Qed.

(** ** One turn of the long-term loop *)

(** The [try] block, case by case: the fetch raises; the series is empty;
    the last close is above the threshold; it is within the threshold and
    zero, so that the upside cannot be computed; it is within the
    threshold and the row is appended. *)
Lemma long_term_try_run w i t :
  long_term_try w i t start =
  match yf_download w t with
  | Raise e => (Raise e, status_only t i 97)
  | Ok df =>
     match last_bar df with
     | None => (Ok tt, status_only t i 97)
     | Some b =>
        if (Close b <=? series_min (column Low df) * 1.05)%float then
          if (Close b =? 0)%float
          then (Raise (ZeroDivisionError "float division by zero"),
                status_only t i 97)
          else (Ok tt, {| suggestions := [suggestion_row t df b];
                          screen := [StatusText (analyzing t i 97)] |})
        else (Ok tt, status_only t i 97)
     end
  end.
Proof.
  unfold long_term_try, bind, emit, lift, status_only.
  rewrite length_NIFTY_100. cbn [suggestions screen app].
  destruct (yf_download w t) as [df | e]; [ | reflexivity ].
  destruct (frame_cases df)
    as [(Hrows & Hempty & _ & Hlast)
       | (b0 & b1 & front & back & _ & Hrows & Hempty & _ & Hlast)];
    rewrite Hempty, Hlast; cbn [negb]; [reflexivity |].
  rewrite (column_snoc Close df front b1 Hrows), iloc_last.
  destruct (Close b1 <=? series_min (column Low df) * 1.05)%float;
    [ | reflexivity ].
  unfold truediv.
  destruct (Close b1 =? 0)%float; reflexivity.
Qed.

Lemma long_term_try_screen w i t :
  screen (snd (long_term_try w i t start)) = [StatusText (analyzing t i 97)].
Proof.
  rewrite long_term_try_run.
  destruct (yf_download w t) as [df | e]; [ | reflexivity ].
  destruct (last_bar df) as [b |]; [ | reflexivity ].
  destruct (_ <=? _)%float; [ | reflexivity ].
  destruct (_ =? _)%float; reflexivity.
Qed.

Lemma long_term_body_run w i t :
  long_term_body w (i, t) start =
  (Ok tt,
   {| suggestions := suggestions (snd (long_term_try w i t start));
      screen := StatusText (analyzing t i 97) ::
        match long_term_failure w i t with
        | Some e => [StWarning (long_term_warning t e)]
        | None => []
        end ++ [BarProgress (expected_fraction 97 i)] |}).
Proof.
  unfold long_term_body, try_finally, try_except, long_term_failure.
  rewrite length_NIFTY_100.
  pose proof (long_term_try_screen w i t) as Hscr.
  destruct (long_term_try w i t start) as [[[] | e] [rs sc]];
    cbn [fst snd screen suggestions raised] in *; subst sc.
  - rewrite update_progress_appends, update_progress_run by reflexivity.
    unfold extend. cbn [suggestions screen fst snd app].
    now rewrite app_nil_r.
  - unfold emit. cbn [suggestions screen].
    rewrite update_progress_appends, update_progress_run by reflexivity.
    unfold extend. cbn [suggestions screen fst snd app].
    now rewrite app_nil_r.
Qed.

(** ** One turn of the intraday loop *)

Lemma iloc_slice_prior_window {A} (s : list A) :
  iloc_slice s (-10) (-1) = prior_window s.
Proof.
  unfold iloc_slice, prior_window, slice_bound.
  replace (-10 <? 0)%Z with true by reflexivity.
  replace (-1 <? 0)%Z with true by reflexivity.
  rewrite removelast_firstn_len, firstn_skipn_comm, length_firstn.
  set (n := List.length s).
  replace (Z.to_nat (Z.max (-10 + Z.of_nat n) 0)) with (n - 10) by lia.
  replace (Nat.min (Nat.pred n) n - 9) with (n - 10) by lia.
  f_equal. f_equal. lia.
Qed.

Lemma volume_stats_run bars front b1 :
  rows bars = front ++ [b1] ->
  exists last_volume,
    volume_stats bars = Ok (avg_volume_of_prior_window bars, last_volume) /\
    ((avg_volume_of_prior_window bars =? 0)%float = false ->
     last_volume = Volume b1).
Proof.
  intros Hrows. unfold volume_stats, avg_volume_of_prior_window.
  destruct (has_volume bars).
  - rewrite iloc_slice_prior_window.
    rewrite (column_snoc Volume bars front b1 Hrows), iloc_last.
    destruct (prior_window _) as [| v win].
    + exists 0%float. split; [reflexivity | intros H; discriminate H].
    + exists (Volume b1). split; [reflexivity | reflexivity].
  - exists 0%float. split; [reflexivity | intros H; discriminate H].
Qed.

Lemma on_date_empty day frame : rows frame = [] -> rows (on_date day frame) = [].
Proof. intros H; unfold on_date; simpl; now rewrite H. Qed.

Lemma intraday_try_run w data i t :
  intraday_try w data i t start =
  match loc_ticker data t with
  | Raise e => (Raise e, status_only t i 50)
  | Ok frame =>
      (Ok tt, {| suggestions := intraday_pick t (on_date (today w i) frame);
                 screen := [StatusText (analyzing t i 50)] |})
  end.
Proof.
  unfold intraday_try, bind, emit, lift, status_only.
  rewrite length_NIFTY_50. cbn [suggestions screen app].
  destruct (loc_ticker data t) as [frame | e]; [ | reflexivity ].
  unfold intraday_pick.
  destruct (frame_cases frame)
    as [(Hrows & Hempty & _ & _) | (_ & _ & _ & _ & _ & _ & Hempty & _ & _)];
    rewrite Hempty; cbn [negb].
  { unfold first_bar. now rewrite (on_date_empty _ _ Hrows). }
  set (bars := on_date (today w i) frame).
  destruct (frame_cases bars)
    as [(_ & Hnone & Hfirst & _)
       | (b0 & b1 & front & back & Hcons & Hsnoc & Hsome & Hfirst & Hlast)].
  { rewrite Hnone, Hfirst. reflexivity. }
  rewrite Hsome, Hfirst, Hlast. cbn [negb].
  rewrite (column_snoc Close bars front b1 Hsnoc), iloc_last.
  rewrite (column_cons Open bars b0 back Hcons), iloc_first.
  destruct (Open b0 <? Close b1)%float; [ | reflexivity ].
  destruct (series_max (column High bars) * 0.995 <=? Close b1)%float;
    [ | reflexivity ].
  cbn [andb].
  destruct (volume_stats_run bars front b1 Hsnoc) as (lv & Hstats & Hlv).
  rewrite Hstats.
  destruct (avg_volume_of_prior_window bars =? 0)%float eqn:Havg; cbn [orb].
  - destruct (0 <? _)%float; reflexivity.
  - rewrite (Hlv eq_refl).
    destruct (_ <? Volume b1)%float; [ | reflexivity ].
    destruct (0 <? _)%float; reflexivity.
Qed.

Lemma intraday_try_screen w data i t :
  screen (snd (intraday_try w data i t start)) = [StatusText (analyzing t i 50)].
Proof.
  rewrite intraday_try_run. destruct (loc_ticker data t); reflexivity.
Qed.

Lemma intraday_try_appends w data i ticker :
  appends (intraday_try w data i ticker).
Proof. unfold intraday_try. appends_auto. Qed.

Lemma intraday_body_appends w data it : appends (intraday_body w data it).
Proof.
  destruct it as [i ticker]. unfold intraday_body.
  apply appends_try_finally.
  - apply appends_try_except; [apply intraday_try_appends | intros; appends_auto].
  - apply update_progress_appends.
Qed.

Lemma intraday_body_run w data i t :
  intraday_body w data (i, t) start =
  (Ok tt,
   {| suggestions := suggestions (snd (intraday_try w data i t start));
      screen := [StatusText (analyzing t i 50);
                 BarProgress (expected_fraction 50 i)] |}).
Proof.
  unfold intraday_body, try_finally, try_except.
  rewrite length_NIFTY_50.
  pose proof (intraday_try_screen w data i t) as Hscr.
  destruct (intraday_try w data i t start) as [[[] | e] [rs sc]];
    cbn [fst snd screen suggestions] in *; subst sc; unfold ret;
    rewrite update_progress_appends, update_progress_run by reflexivity;
    unfold extend; cbn [suggestions screen fst snd app];
    now rewrite app_nil_r.
Qed.

Lemma intraday_body_ok w data it : fst (intraday_body w data it start) = Ok tt.
Proof. destruct it as [i t]. now rewrite intraday_body_run. Qed.

(** When the batch fetch returns, the intraday scan returns, and its table
    and screen are the rows and calls of its turns, in order. *)
Lemma intraday_run w scr data :
  yf_download_batch w = Ok data ->
  find_intraday_opportunities w scr =
  (Ok (flat_map (intraday_rows w data) (enumerate NIFTY_50_STOCKS)),
   scr ++ StProgress 0 :: StEmpty ::
     flat_map (intraday_calls w data) (enumerate NIFTY_50_STOCKS)
     ++ [StatusText "Analysis Complete!"]).
Proof.
  intros Hbatch.
  unfold find_intraday_opportunities, intraday_scan, bind, emit, lift.
  cbv beta iota. rewrite Hbatch.
  rewrite (for_each_adds (intraday_body w data) (intraday_body_appends w data)
             (intraday_body_ok w data)).
  unfold extend, intraday_rows, intraday_calls.
  cbn [suggestions screen app fst snd]. f_equal.
  rewrite <- !app_assoc. reflexivity.
Qed.

(** When the batch fetch raises, the exception leaves the scan before the
    loop starts. *)
Lemma intraday_abort w scr e :
  yf_download_batch w = Raise e ->
  find_intraday_opportunities w scr = (Raise e, scr ++ [StProgress 0; StEmpty]).
Proof.
  intros Hbatch.
  unfold find_intraday_opportunities, intraday_scan, bind, emit, lift.
  cbv beta iota. rewrite Hbatch.
  cbn [suggestions screen]. now rewrite <- app_assoc.
Qed.

(** ** Enumerations and tables *)

Lemma in_combine_seq {A} (l : list A) k i x :
  In (i, x) (combine (seq k (List.length l)) l) <->
  k <= i /\ nth_error l (i - k) = Some x.
Proof.
  revert k; induction l as [| a l IH]; intros k; simpl.
  - split; [tauto | intros [_ H]; destruct (i - k); discriminate].
  - rewrite IH. split.
    + intros [H | [Hle Hnth]].
      * inversion H; subst. rewrite Nat.sub_diag. split; [lia | reflexivity].
      * split; [lia |]. replace (i - k) with (S (i - S k)) by lia. exact Hnth.
    + intros [Hle Hnth]. destruct (i - k) as [| j] eqn:Hj.
      * left. inversion Hnth; subst. f_equal. lia.
      * right. split; [lia |]. replace (i - S k) with j by lia. exact Hnth.
Qed.

Lemma in_enumerate {A} (l : list A) i x :
  In (i, x) (enumerate l) <-> nth_error l i = Some x.
Proof.
  unfold enumerate. rewrite in_combine_seq, Nat.sub_0_r.
  split; [tauto | split; [lia | assumption]].
Qed.

Lemma map_snd_enumerate {A} (l : list A) : map snd (enumerate l) = l.
Proof.
  unfold enumerate. generalize 0.
  induction l as [| a l IH]; intros k; simpl; [reflexivity |].
  now rewrite IH.
Qed.

Lemma map_fst_enumerate {A} (l : list A) :
  map fst (enumerate l) = seq 0 (List.length l).
Proof.
  unfold enumerate. generalize 0.
  induction l as [| a l IH]; intros k; simpl; [reflexivity |].
  now rewrite IH.
Qed.

Lemma filter_flat_map' {A B} (p : B -> bool) (f : A -> list B) l :
  filter p (flat_map f l) = flat_map (fun x => filter p (f x)) l.
Proof.
  induction l as [| a l IH]; simpl; [reflexivity |].
  now rewrite filter_app, IH.
Qed.

Lemma flat_map_ext_in' {A B} (f g : A -> list B) l :
  (forall x, In x l -> f x = g x) -> flat_map f l = flat_map g l.
Proof.
  induction l as [| a l IH]; intros H; simpl; [reflexivity |].
  rewrite (H a (or_introl eq_refl)), IH; [reflexivity |].
  intros x Hx; apply H; now right.
Qed.

Lemma distinct_NoDup l : distinct l = true -> NoDup l.
Proof.
  induction l as [| x l IH]; simpl; intros H; constructor;
    apply andb_prop in H; destruct H as [Hx Hl].
  - intros Hin. apply negb_true_iff in Hx.
    assert (existsb (String.eqb x) l = true) as Hex
      by (apply existsb_exists; exists x; split; [assumption | apply String.eqb_refl]).
    congruence.
  - now apply IH.
Qed.

Lemma NoDup_NIFTY_100 : NoDup NIFTY_100_STOCKS.
Proof. apply distinct_NoDup. vm_compute. reflexivity. Qed.

Lemma NoDup_NIFTY_50 : NoDup NIFTY_50_STOCKS.
Proof. apply distinct_NoDup. vm_compute. reflexivity. Qed.

Lemma nth_error_unique (l : list string) i j t :
  NoDup l -> nth_error l i = Some t -> nth_error l j = Some t -> i = j.
Proof.
  intros Hnd Hi Hj. apply (proj1 (NoDup_nth_error l) Hnd).
  - apply nth_error_Some. congruence.
  - congruence.
Qed.

(** At most one row per element, each carrying the element's key: the
    keys of the rows are a subsequence of the elements' keys. *)
Lemma subsequence_refl_nil {A} (l : list A) : subsequence [] l.
Proof. induction l; constructor; assumption. Qed.

Lemma flat_map_subsequence {X R K} (rows : X -> list R) (key : R -> K)
  (proj : X -> K) (l : list X) :
  (forall x r, In r (rows x) -> key r = proj x) ->
  (forall x, List.length (rows x) <= 1) ->
  subsequence (map key (flat_map rows l)) (map proj l).
Proof.
  intros Hkey Hone. induction l as [| x l IH]; simpl; [constructor |].
  specialize (Hone x). pose proof (Hkey x) as Hx.
  destruct (rows x) as [| r [| r' rest]]; simpl in *.
  - now constructor.
  - rewrite (Hx r (or_introl eq_refl)). now constructor.
  - lia.
Qed.

Lemma subsequence_length {A} (l1 l2 : list A) :
  subsequence l1 l2 -> List.length l1 <= List.length l2.
Proof. induction 1; simpl; lia. Qed.

Lemma subsequence_count (l1 l2 : list string) t :
  subsequence l1 l2 ->
  count_occ string_dec l1 t <= count_occ string_dec l2 t.
Proof.
  induction 1; simpl; [lia | |]; destruct (string_dec x t); lia.
Qed.

Lemma NoDup_count (l : list string) t : NoDup l -> count_occ string_dec l t <= 1.
Proof. intros H. now apply (proj1 (NoDup_count_occ string_dec l)). Qed.

(** ** The rows of one turn *)

Lemma long_term_rows_pick w i t :
  long_term_rows w (i, t) =
  match yf_download w t with
  | Ok df => long_term_pick t df
  | Raise _ => []
  end.
Proof.
  unfold long_term_rows. rewrite long_term_body_run. cbn [snd suggestions].
  rewrite long_term_try_run. unfold long_term_pick.
  destruct (yf_download w t) as [df | e]; [ | reflexivity ].
  destruct (last_bar df) as [b |]; [ | reflexivity ].
  destruct (_ <=? _)%float; [ | reflexivity ].
  destruct (_ =? _)%float; reflexivity.
Qed.

Lemma long_term_failure_cases w i t :
  long_term_failure w i t =
  match yf_download w t with
  | Raise e => Some e
  | Ok df =>
      match last_bar df with
      | Some b =>
          if ((Close b <=? series_min (column Low df) * 1.05)
              && (Close b =? 0))%float
          then Some (ZeroDivisionError "float division by zero")
          else None
      | None => None
      end
  end.
Proof.
  unfold long_term_failure. rewrite long_term_try_run.
  destruct (yf_download w t) as [df | e]; [ | reflexivity ].
  destruct (last_bar df) as [b |]; [ | reflexivity ].
  destruct (_ <=? _)%float; [ | reflexivity ].
  destruct (_ =? _)%float; reflexivity.
Qed.

Lemma long_term_pick_stock t df r : In r (long_term_pick t df) -> sr_Stock r = t.
Proof.
  unfold long_term_pick. destruct (last_bar df) as [b |]; [ | intros [] ].
  destruct (_ && _); [ | intros [] ].
  intros [<- | []]. reflexivity.
Qed.

Lemma long_term_pick_length t df : List.length (long_term_pick t df) <= 1.
Proof.
  unfold long_term_pick. destruct (last_bar df) as [b |]; [ | simpl; lia ].
  destruct (_ && _); simpl; lia.
Qed.

Lemma long_term_pick_rule t df :
  long_term_pick t df <> [] <-> near_52_week_low df /\ nonzero_last_close df.
Proof.
  unfold long_term_pick, near_52_week_low, nonzero_last_close.
  destruct (last_bar df) as [b |].
  - destruct (Close b <=? _)%float eqn:Hle; destruct (Close b =? 0)%float eqn:Hz;
      cbn [andb negb]; split.
    all: try (intros H; now contradiction H).
    all: try (intros [(b' & Hb & H1) (b'' & Hb' & H2)];
              inversion Hb; inversion Hb'; subst; congruence).
    intros _. split; exists b; auto.
  - split; [intros H; now contradiction H |].
    intros [(b & Hb & _) _]. discriminate.
Qed.

Lemma long_term_rows_stock w it r :
  In r (long_term_rows w it) -> sr_Stock r = snd it.
Proof.
  destruct it as [i t]. rewrite long_term_rows_pick.
  destruct (yf_download w t); [apply long_term_pick_stock | intros []].
Qed.

Lemma long_term_rows_length w it : List.length (long_term_rows w it) <= 1.
Proof.
  destruct it as [i t]. rewrite long_term_rows_pick.
  destruct (yf_download w t); [apply long_term_pick_length | simpl; lia].
Qed.

Lemma intraday_rows_pick w data i t :
  intraday_rows w data (i, t) =
  match loc_ticker data t with
  | Ok frame => intraday_pick t (on_date (today w i) frame)
  | Raise _ => []
  end.
Proof.
  unfold intraday_rows. rewrite intraday_body_run. cbn [snd suggestions].
  rewrite intraday_try_run.
  destruct (loc_ticker data t); reflexivity.
Qed.

Lemma intraday_failure_cases w data i t :
  intraday_failure w data i t = raised (loc_ticker data t).
Proof.
  unfold intraday_failure. rewrite intraday_try_run.
  destruct (loc_ticker data t); reflexivity.
Qed.

Lemma intraday_pick_stock t bars r : In r (intraday_pick t bars) -> or_Stock r = t.
Proof.
  unfold intraday_pick.
  destruct (first_bar bars) as [b0 |]; [ | intros [] ].
  destruct (last_bar bars) as [b1 |]; [ | intros [] ].
  destruct (_ && _); [ | intros [] ].
  intros [<- | []]. reflexivity.
Qed.

Lemma intraday_pick_length t bars : List.length (intraday_pick t bars) <= 1.
Proof.
  unfold intraday_pick.
  destruct (first_bar bars) as [b0 |]; [ | simpl; lia ].
  destruct (last_bar bars) as [b1 |]; [ | simpl; lia ].
  destruct (_ && _); simpl; lia.
Qed.

Lemma intraday_pick_rule t bars :
  intraday_pick t bars <> [] <-> intraday_rule bars.
Proof.
  unfold intraday_pick, intraday_rule, near_high_breakout, volume_confirmation,
    positive_risk.
  destruct (frame_cases bars)
    as [(Hrows & _ & Hfirst & Hlast)
       | (b0 & b1 & front & back & Hcons & _ & _ & Hfirst & Hlast)];
    rewrite Hfirst, Hlast.
  - split; [intros H; now contradiction H | intros [H _]; now contradiction H].
  - destruct (_ && _) eqn:Hall.
    + apply andb_prop in Hall. destruct Hall as [Hall Hrisk].
      apply andb_prop in Hall. destruct Hall as [Hall HB].
      apply andb_prop in Hall. destruct Hall as [HA1 HA2].
      apply orb_prop in HB.
      split; [intros _ | discriminate].
      split; [rewrite Hcons; discriminate |].
      split; [exists b0, b1; auto |].
      split; [exists b1; auto | exists b0; auto].
    + split; [intros H; now contradiction H |].
      intros (_ & (c0 & c1 & Hc0 & Hc1 & HA1 & HA2) & (d1 & Hd1 & HB)
              & (d0 & Hd0 & Hrisk)).
      inversion Hc0; inversion Hc1; inversion Hd1; inversion Hd0; subst.
      rewrite HA1, HA2, Hrisk in Hall. cbn [andb] in Hall.
      rewrite andb_true_r in Hall.
      destruct HB as [HB | HB]; rewrite HB in Hall;
        [discriminate | now rewrite orb_true_r in Hall].
Qed.

Lemma intraday_rows_stock w data it r :
  In r (intraday_rows w data it) -> or_Stock r = snd it.
Proof.
  destruct it as [i t]. rewrite intraday_rows_pick.
  destruct (loc_ticker data t); [apply intraday_pick_stock | intros []].
Qed.

Lemma intraday_rows_length w data it :
  List.length (intraday_rows w data it) <= 1.
Proof.
  destruct it as [i t]. rewrite intraday_rows_pick.
  destruct (loc_ticker data t); [apply intraday_pick_length | simpl; lia].
Qed.

(** ** The tables *)

Lemma long_term_table w scr :
  table (find_long_term_suggestions w scr) =
  flat_map (long_term_rows w) (enumerate NIFTY_100_STOCKS).
Proof. now rewrite long_term_run. Qed.

Lemma intraday_table w scr :
  table (find_intraday_opportunities w scr) =
  match yf_download_batch w with
  | Ok data => flat_map (intraday_rows w data) (enumerate NIFTY_50_STOCKS)
  | Raise _ => []
  end.
Proof.
  destruct (yf_download_batch w) as [data | e] eqn:Hbatch.
  - now rewrite (intraday_run w scr data Hbatch).
  - now rewrite (intraday_abort w scr e Hbatch).
Qed.

(** A table built turn by turn has a row for a ticker exactly when some
    turn on that ticker appended one. *)
Lemma keyed_rows {R} (rows : nat * string -> list R) (key : R -> string)
  (universe : list string) (t : string) :
  (forall it r, In r (rows it) -> key r = snd it) ->
  ((exists r, In r (flat_map rows (enumerate universe)) /\ key r = t) <->
   (exists i, nth_error universe i = Some t /\ rows (i, t) <> [])).
Proof.
  intros Hkey. split.
  - intros (r & Hin & Hr). apply in_flat_map in Hin.
    destruct Hin as ([i t'] & Hit & Hrow).
    pose proof (Hkey _ _ Hrow) as Hk. simpl in Hk.
    rewrite Hr in Hk. subst t'.
    exists i. split; [apply (proj1 (in_enumerate _ _ _) Hit) |].
    intros Hnil. rewrite Hnil in Hrow. contradiction.
  - intros (i & Hnth & Hrows).
    destruct (rows (i, t)) as [| r rest] eqn:Hrow; [congruence |].
    exists r. split.
    + apply in_flat_map. exists (i, t).
      split; [apply (proj2 (in_enumerate _ _ _) Hnth) |].
      rewrite Hrow. now left.
    + apply (Hkey (i, t)). rewrite Hrow. now left.
Qed.

Lemma flat_map_singleton {A B} (f : A -> list B) (g : A -> B) l :
  (forall x, f x = [g x]) -> flat_map f l = map g l.
Proof.
  intros H. induction l as [| a l IH]; simpl; [reflexivity |].
  now rewrite H, IH.
Qed.

Lemma flat_map_nil {A B} (l : list A) : flat_map (fun _ => @nil B) l = [].
Proof. induction l; simpl; auto. Qed.

Lemma flat_map_flat_map {A B C} (f : A -> list B) (g : B -> list C) l :
  flat_map g (flat_map f l) = flat_map (fun x => flat_map g (f x)) l.
Proof.
  induction l as [| a l IH]; simpl; [reflexivity |].
  now rewrite flat_map_app, IH.
Qed.

Lemma map_enumerate_fst {A B} (g : nat -> B) (l : list A) :
  map (fun it => g (fst it)) (enumerate l) = map g (seq 0 (List.length l)).
Proof. now rewrite <- map_fst_enumerate, map_map. Qed.

(** ** The screen *)

Lemma long_term_calls_run w i t :
  long_term_calls w (i, t) =
  StatusText (analyzing t i 97) ::
    match long_term_failure w i t with
    | Some e => [StWarning (long_term_warning t e)]
    | None => []
    end ++ [BarProgress (expected_fraction 97 i)].
Proof. unfold long_term_calls. now rewrite long_term_body_run. Qed.

Lemma intraday_calls_run w data i t :
  intraday_calls w data (i, t) =
  [StatusText (analyzing t i 50); BarProgress (expected_fraction 50 i)].
Proof. unfold intraday_calls. now rewrite intraday_body_run. Qed.

Lemma warnings_frame scr calls s :
  warnings (scr ++ StProgress 0 :: StEmpty :: calls ++ [StatusText s]) =
  warnings scr ++ warnings calls.
Proof.
  unfold warnings. rewrite flat_map_app. cbn [flat_map app].
  rewrite flat_map_app. cbn [flat_map app]. now rewrite app_nil_r.
Qed.

Lemma progress_frame scr calls s :
  progress_reports (scr ++ StProgress 0 :: StEmpty :: calls ++ [StatusText s]) =
  progress_reports scr ++ progress_reports calls.
Proof.
  unfold progress_reports. rewrite flat_map_app. cbn [flat_map app].
  rewrite flat_map_app. cbn [flat_map app]. now rewrite app_nil_r.
Qed.

Lemma warnings_turns {X} (calls : X -> list ui_event) l :
  warnings (flat_map calls l) = flat_map (fun x => warnings (calls x)) l.
Proof. unfold warnings. apply flat_map_flat_map. Qed.

Lemma progress_turns {X} (calls : X -> list ui_event) l :
  progress_reports (flat_map calls l) =
  flat_map (fun x => progress_reports (calls x)) l.
Proof. unfold progress_reports. apply flat_map_flat_map. Qed.

Lemma long_term_progress w scr :
  progress_reports (snd (find_long_term_suggestions w scr)) =
  progress_reports scr ++ expected_progress (List.length NIFTY_100_STOCKS).
Proof.
  rewrite long_term_run. cbn [snd].
  rewrite progress_frame, progress_turns. f_equal.
  rewrite (flat_map_singleton _ (fun it => expected_fraction 97 (fst it))).
  - now rewrite map_enumerate_fst.
  - intros [i t]. rewrite long_term_calls_run. unfold progress_reports.
    cbn [flat_map fst app]. rewrite flat_map_app. cbn [flat_map app].
    destruct (long_term_failure w i t); reflexivity.
Qed.

Lemma intraday_progress w scr data :
  yf_download_batch w = Ok data ->
  progress_reports (snd (find_intraday_opportunities w scr)) =
  progress_reports scr ++ expected_progress (List.length NIFTY_50_STOCKS).
Proof.
  intros Hbatch.
  rewrite (intraday_run w scr data Hbatch). cbn [snd].
  rewrite progress_frame, progress_turns. f_equal.
  rewrite (flat_map_singleton _ (fun it => expected_fraction 50 (fst it))).
  - now rewrite map_enumerate_fst.
  - intros [i t]. now rewrite intraday_calls_run.
Qed.

Lemma long_term_warnings w scr :
  warnings (snd (find_long_term_suggestions w scr)) =
  warnings scr ++ owed_warnings w.
Proof.
  rewrite long_term_run. cbn [snd].
  rewrite warnings_frame, warnings_turns. f_equal.
  unfold owed_warnings.
  apply flat_map_ext. intros [i t]. rewrite long_term_calls_run.
  unfold warnings. cbn [flat_map fst snd app]. rewrite flat_map_app.
  cbn [flat_map app].
  destruct (long_term_failure w i t); reflexivity.
Qed.

Lemma intraday_warnings w scr :
  warnings (snd (find_intraday_opportunities w scr)) = warnings scr.
Proof.
  destruct (yf_download_batch w) as [data | e] eqn:Hbatch.
  - rewrite (intraday_run w scr data Hbatch). cbn [snd].
    rewrite warnings_frame, warnings_turns.
    rewrite (flat_map_ext _ (fun _ => [])).
    + now rewrite flat_map_nil, app_nil_r.
    + intros [i t]. now rewrite intraday_calls_run.
  - rewrite (intraday_abort w scr e Hbatch). cbn [snd]. unfold warnings.
    rewrite flat_map_app. cbn [flat_map app]. now rewrite app_nil_r.
Qed.

(** ** Rendering with two decimals *)

(** With a non-negative exponent the value is an integer and nothing is
    rounded. *)
Lemma round_half_even_exact a e :
  (0 <= e)%Z -> round_half_even a e = (a * 2 ^ e)%Z.
Proof.
  intros He. unfold round_half_even.
  now destruct (Z.leb_spec 0 e); [ | lia ].
Qed.

(** With a negative exponent the result is a nearest integer: it is off by
    at most one half, measured in units of [2^e]. *)
Lemma round_half_even_nearest a e :
  (e < 0)%Z ->
  (Z.abs (2 * (a - round_half_even a e * 2 ^ (- e))) <= 2 ^ (- e))%Z.
Proof.
  intros He. unfold round_half_even.
  destruct (Z.leb_spec 0 e); [lia |].
  assert (0 < 2 ^ (- e))%Z as Hd by (apply Z.pow_pos_nonneg; lia).
  set (d := (2 ^ (- e))%Z) in *.
  pose proof (Z.div_mod a d ltac:(lia)) as Hdiv.
  pose proof (Z.mod_pos_bound a d Hd) as Hmod.
  set (q := (a / d)%Z) in *. set (r := (a mod d)%Z) in *.
  destruct (Z.ltb_spec (2 * r) d); [ | destruct (Z.ltb_spec d (2 * r));
                                        [ | destruct (Z.even q) ] ];
    apply Z.abs_le; nia.
Qed.

(** On a tie the even neighbour is taken. *)
Lemma round_half_even_tie a e :
  (e < 0)%Z -> (2 * (a mod 2 ^ (- e)) = 2 ^ (- e))%Z ->
  Z.even (round_half_even a e) = true.
Proof.
  intros He Htie. unfold round_half_even.
  destruct (Z.leb_spec 0 e); [lia |].
  rewrite Htie, Z.ltb_irrefl.
  destruct (Z.even (a / 2 ^ (- e))) eqn:Hq; [exact Hq |].
  rewrite Z.even_add, Hq. reflexivity.
Qed.

(** The examples of the specification. *)
Example format_upside_example :
  percent ((115 - 93) / 93 * 100)%float = "23.66%"%string.
Proof. reflexivity. Qed.

Example format_ties :
  map format_2f [0.125; 0.375; 2.675; 1.005; -0.001; 112.625]%float =
  ["0.12"; "0.38"; "2.67"; "1.00"; "-0.00"; "112.62"]%string.
Proof. reflexivity. Qed.

Example long_term_example :
  fst (find_long_term_suggestions sample_world []) =
  Ok [{| sr_Stock := "TCS.NS";
         sr_CMP := (currency_prefix ++ "93.00")%string;
         sr_52Wk_Low := (currency_prefix ++ "90.00")%string;
         sr_52Wk_High := (currency_prefix ++ "115.00")%string;
         sr_Upside_Potential := "23.66%" |}].
Proof. reflexivity. Qed.

Example intraday_example :
  fst (find_intraday_opportunities sample_world []) =
  Ok [{| or_Stock := "TCS.NS";
         or_CMP := (currency_prefix ++ "104.70")%string;
         or_Condition := "Near Day High + Volume Spike";
         or_Entry := (currency_prefix ++ "105.05")%string;
         or_Target := (currency_prefix ++ "112.62")%string;
         or_Stop_Loss := (currency_prefix ++ "100.00")%string |};
      {| or_Stock := "INFY.NS";
         or_CMP := (currency_prefix ++ "101.00")%string;
         or_Condition := "Near Day High + Volume Spike";
         or_Entry := (currency_prefix ++ "101.05")%string;
         or_Target := (currency_prefix ++ "102.62")%string;
         or_Stop_Loss := (currency_prefix ++ "100.00")%string |}].
Proof. reflexivity. Qed.

(** The widget refusing every update changes neither table nor reports. *)
Example long_term_offline :
  fst (find_long_term_suggestions offline_world []) = Ok [] /\
  List.length (warnings (snd (find_long_term_suggestions offline_world []))) = 97 /\
  progress_reports (snd (find_long_term_suggestions offline_world [])) =
    expected_progress 97.
Proof. repeat split. Qed.

(** ** Isolation of the turns *)

Lemma long_term_suggests w scr t :
  suggests (table (find_long_term_suggestions w scr)) t <->
  exists i, nth_error NIFTY_100_STOCKS i = Some t /\ long_term_rows w (i, t) <> [].
Proof.
  rewrite long_term_table. unfold suggests.
  apply keyed_rows, long_term_rows_stock.
Qed.

Lemma intraday_proposes w scr data t :
  yf_download_batch w = Ok data ->
  (proposes (table (find_intraday_opportunities w scr)) t <->
   exists i, nth_error NIFTY_50_STOCKS i = Some t /\
             intraday_rows w data (i, t) <> []).
Proof.
  intros Hbatch. rewrite intraday_table, Hbatch. unfold proposes.
  apply keyed_rows, intraday_rows_stock.
Qed.

Lemma long_term_failure_no_rows w i t :
  long_term_failure w i t <> None -> long_term_rows w (i, t) = [].
Proof.
  rewrite long_term_failure_cases, long_term_rows_pick. unfold long_term_pick.
  destruct (yf_download w t) as [df | e]; [ | reflexivity ].
  destruct (last_bar df) as [b |]; [ | reflexivity ].
  destruct (_ <=? _)%float; [ | reflexivity ].
  destruct (_ =? _)%float; cbn [andb negb]; [reflexivity | congruence].
Qed.

Lemma intraday_failure_no_rows w data i t :
  intraday_failure w data i t <> None -> intraday_rows w data (i, t) = [].
Proof.
  rewrite intraday_failure_cases, intraday_rows_pick.
  destruct (loc_ticker data t); cbn [raised]; congruence.
Qed.

Lemma filter_other_than_rows {R} (key : R -> string) (rows : list R) t t0 :
  (forall r, In r rows -> key r = t) ->
  t = t0 ->
  filter (fun r => other_than t0 (key r)) rows = [].
Proof.
  intros Hkey ->. induction rows as [| r rows IH]; simpl; [reflexivity |].
  unfold other_than at 1. rewrite (Hkey r (or_introl eq_refl)), String.eqb_refl.
  simpl. apply IH. intros r' Hr'. apply Hkey. now right.
Qed.

(** Two worlds that fetch the same series for every ticker but [t0] build
    long-term tables that differ at most in the row of [t0]. *)
Lemma long_term_isolated w w' scr scr' t0 :
  (forall t, t <> t0 -> yf_download w' t = yf_download w t) ->
  filter (fun r => other_than t0 (sr_Stock r))
         (table (find_long_term_suggestions w' scr')) =
  filter (fun r => other_than t0 (sr_Stock r))
         (table (find_long_term_suggestions w scr)).
Proof.
  intros Hsame. rewrite !long_term_table, !filter_flat_map'.
  apply flat_map_ext. intros [i t].
  destruct (string_dec t t0) as [Heq | Hne].
  - rewrite (filter_other_than_rows sr_Stock (long_term_rows w' (i, t)) t t0),
            (filter_other_than_rows sr_Stock (long_term_rows w (i, t)) t t0);
      auto; intros r Hr; apply (long_term_rows_stock _ _ _ Hr).
  - now rewrite !long_term_rows_pick, (Hsame t Hne).
Qed.

Lemma intraday_isolated w w' scr scr' data data' t0 :
  yf_download_batch w = Ok data ->
  yf_download_batch w' = Ok data' ->
  (forall t, t <> t0 -> loc_ticker data' t = loc_ticker data t) ->
  (forall i, today w' i = today w i) ->
  filter (fun r => other_than t0 (or_Stock r))
         (table (find_intraday_opportunities w' scr')) =
  filter (fun r => other_than t0 (or_Stock r))
         (table (find_intraday_opportunities w scr)).
Proof.
  intros Hbatch Hbatch' Hsame Hclock.
  rewrite !intraday_table, Hbatch, Hbatch', !filter_flat_map'.
  apply flat_map_ext. intros [i t].
  destruct (string_dec t t0) as [Heq | Hne].
  - rewrite (filter_other_than_rows or_Stock (intraday_rows w' data' (i, t)) t t0),
            (filter_other_than_rows or_Stock (intraday_rows w data (i, t)) t t0);
      auto; intros r Hr; apply (intraday_rows_stock _ _ _ _ Hr).
  - now rewrite !intraday_rows_pick, (Hsame t Hne), Hclock.
Qed.

(** In the intraday table a ticker has a row exactly when today's bars
    satisfy the rule of the specification. *)
Lemma intraday_proposes_rule w scr data i t frame :
  yf_download_batch w = Ok data ->
  nth_error NIFTY_50_STOCKS i = Some t ->
  loc_ticker data t = Ok frame ->
  (proposes (table (find_intraday_opportunities w scr)) t <->
   intraday_rule (on_date (today w i) frame)).
Proof.
  intros Hbatch Hnth Hloc. rewrite intraday_table, Hbatch. unfold proposes.
  rewrite (keyed_rows _ _ _ _ (intraday_rows_stock w data)).
  split.
  - intros (j & Hj & Hrows).
    rewrite (nth_error_unique _ _ _ _ NoDup_NIFTY_50 Hnth Hj).
    rewrite intraday_rows_pick, Hloc in Hrows.
    now apply intraday_pick_rule in Hrows.
  - intros Hrule. exists i. split; [exact Hnth |].
    rewrite intraday_rows_pick, Hloc.
    now apply intraday_pick_rule.
Qed.

Lemma volume_stats_no_baseline bars :
  has_volume bars = false \/ List.length (rows bars) = 1 ->
  volume_stats bars = Ok (0%float, 0%float) /\
  avg_volume_of_prior_window bars = 0%float.
Proof.
  unfold volume_stats, avg_volume_of_prior_window.
  intros [Hno | Hone].
  - rewrite Hno. split; reflexivity.
  - destruct (has_volume bars); [ | split; reflexivity ].
    rewrite iloc_slice_prior_window. unfold column.
    destruct (rows bars) as [| b [| b' rest]]; try discriminate Hone.
    split; reflexivity.
Qed.

(** ** Progress *)

Lemma progress_97_shape :
  nondecreasing (expected_progress 97) = true /\
  last (expected_progress 97) 0%float = 1%float.
Proof. split; vm_compute; reflexivity. Qed.

Lemma progress_50_shape :
  nondecreasing (expected_progress 50) = true /\
  last (expected_progress 50) 0%float = 1%float.
Proof. split; vm_compute; reflexivity. Qed.

(** The same shape for every universe of 1 to 256 tickers: the two sizes
    of the source are not special. *)
Lemma progress_shape_up_to_256 :
  forallb (fun n => nondecreasing (expected_progress n)
                    && (last (expected_progress n) 0 =? 1)%float)
          (seq 1 256) = true.
Proof. vm_compute. reflexivity. Qed.

Lemma length_expected_progress n : List.length (expected_progress n) = n.
Proof. unfold expected_progress. now rewrite length_map, length_seq. Qed.

Lemma nth_expected_progress n i :
  i < n -> nth_error (expected_progress n) i = Some (expected_fraction n i).
Proof.
  intros Hi. unfold expected_progress.
  rewrite nth_error_map, nth_error_seq.
  destruct (Nat.ltb_spec i n); [reflexivity | lia].
Qed.

(** ** The rows of the long-term table *)


(** ** Order and size of the tables *)

Lemma long_term_stocks_subsequence w scr :
  subsequence (map sr_Stock (table (find_long_term_suggestions w scr)))
              NIFTY_100_STOCKS.
Proof.
  rewrite long_term_table.
  rewrite <- (map_snd_enumerate NIFTY_100_STOCKS) at 2.
  apply flat_map_subsequence.
  - intros it r. apply long_term_rows_stock.
  - apply long_term_rows_length.
Qed.

Lemma intraday_stocks_subsequence w scr :
  subsequence (map or_Stock (table (find_intraday_opportunities w scr)))
              NIFTY_50_STOCKS.
Proof.
  rewrite intraday_table.
  destruct (yf_download_batch w) as [data | e]; [ | apply subsequence_refl_nil ].
  rewrite <- (map_snd_enumerate NIFTY_50_STOCKS) at 2.
  apply flat_map_subsequence.
  - intros it r. apply intraday_rows_stock.
  - apply intraday_rows_length.
Qed.

(** ** Determinism *)

Lemma long_term_table_ext w w' scr scr' :
  (forall t, In t NIFTY_100_STOCKS -> yf_download w t = yf_download w' t) ->
  fst (find_long_term_suggestions w scr) = fst (find_long_term_suggestions w' scr').
Proof.
  intros Hsame. rewrite !long_term_run. cbn [fst]. f_equal.
  apply flat_map_ext_in'. intros [i t] Hit.
  apply in_enumerate, nth_error_In in Hit.
  now rewrite !long_term_rows_pick, (Hsame t Hit).
Qed.

Lemma intraday_table_ext w w' scr scr' :
  yf_download_batch w = yf_download_batch w' ->
  (forall i, i < List.length NIFTY_50_STOCKS -> today w i = today w' i) ->
  fst (find_intraday_opportunities w scr) =
  fst (find_intraday_opportunities w' scr').
Proof.
  intros Hbatch Hclock.
  destruct (yf_download_batch w) as [data | e] eqn:Hw.
  - rewrite (intraday_run w scr data Hw), (intraday_run w' scr' data (eq_sym Hbatch)).
    cbn [fst]. f_equal.
    apply flat_map_ext_in'. intros [i t] Hit.
    apply in_enumerate in Hit.
    assert (i < List.length NIFTY_50_STOCKS) as Hi
      by (apply nth_error_Some; congruence).
    now rewrite !intraday_rows_pick, (Hclock i Hi).
  - now rewrite (intraday_abort w scr e Hw), (intraday_abort w' scr' e (eq_sym Hbatch)).
Qed.

(** ** Frames that differ in their volumes only *)

Lemma same_prices_on_date day f1 f2 :
  same_prices f1 f2 -> same_prices (on_date day f1) (on_date day f2).
Proof.
  intros [Hvol Hrows]. split; [exact Hvol |].
  unfold on_date; cbn [rows].
  generalize dependent (rows f2).
  induction (rows f1) as [| b l IH]; intros [| b' l'] Hmap;
    try discriminate Hmap; [reflexivity |].
  cbn [map] in Hmap.
  assert (without_volume b = without_volume b') as Hb by congruence.
  assert (map without_volume l = map without_volume l') as Hl by congruence.
  assert (date (stamp b) = date (stamp b')) as Hdate
    by (change (date (stamp (without_volume b)) = date (stamp (without_volume b')));
        now rewrite Hb).
  cbn [filter]. rewrite Hdate.
  destruct (date (stamp b') =? day)%Z; cbn [map]; [f_equal; [exact Hb |] |];
    now apply IH.
Qed.

Lemma same_prices_column (field : Bar -> float) f1 f2 :
  (forall b, field (without_volume b) = field b) ->
  same_prices f1 f2 -> column field f1 = column field f2.
Proof.
  intros Hfield [_ Hrows]. unfold column.
  rewrite <- (map_ext _ _ Hfield (rows f1)), <- (map_ext _ _ Hfield (rows f2)).
  rewrite <- (map_map without_volume field (rows f1)).
  rewrite <- (map_map without_volume field (rows f2)).
  now rewrite Hrows.
Qed.

Lemma same_prices_first f1 f2 :
  same_prices f1 f2 ->
  option_map without_volume (first_bar f1) =
  option_map without_volume (first_bar f2).
Proof.
  intros [_ Hrows]. unfold first_bar.
  destruct (rows f1) as [| a l], (rows f2) as [| a' l']; try discriminate Hrows;
    [reflexivity |].
  cbn [map] in Hrows. cbn [option_map hd_error]. congruence.
Qed.

Lemma same_prices_last f1 f2 :
  same_prices f1 f2 ->
  option_map without_volume (last_bar f1) =
  option_map without_volume (last_bar f2).
Proof.
  intros [_ Hrows]. unfold last_bar.
  assert (map without_volume (rev (rows f1)) = map without_volume (rev (rows f2)))
    as Hrev by (now rewrite !map_rev, Hrows).
  destruct (rev (rows f1)) as [| a l], (rev (rows f2)) as [| a' l'];
    try discriminate Hrev; [reflexivity |].
  cbn [map] in Hrev. cbn [option_map hd_error]. congruence.
Qed.

Lemma same_prices_length f1 f2 :
  same_prices f1 f2 -> List.length (rows f1) = List.length (rows f2).
Proof.
  intros [_ Hrows].
  now rewrite <- (length_map without_volume (rows f1)), Hrows, length_map.
Qed.

Lemma without_volume_eq_Open b b' :
  without_volume b = without_volume b' -> Open b = Open b'.
Proof. intros H. change (Open (without_volume b) = Open (without_volume b')). now rewrite H. Qed.

Lemma without_volume_eq_Close b b' :
  without_volume b = without_volume b' -> Close b = Close b'.
Proof. intros H. change (Close (without_volume b) = Close (without_volume b')). now rewrite H. Qed.

(** Condition A and the risk read prices only. *)
Lemma near_high_breakout_prices f1 f2 :
  same_prices f1 f2 -> near_high_breakout f1 -> near_high_breakout f2.
Proof.
  intros Hsame (b0 & b1 & Hb0 & Hb1 & HA1 & HA2).
  pose proof (same_prices_first f1 f2 Hsame) as Hfirst.
  pose proof (same_prices_last f1 f2 Hsame) as Hlast.
  rewrite Hb0 in Hfirst. rewrite Hb1 in Hlast.
  destruct (first_bar f2) as [c0 |] eqn:Hc0; [ | discriminate Hfirst ].
  destruct (last_bar f2) as [c1 |] eqn:Hc1; [ | discriminate Hlast ].
  cbn [option_map] in Hfirst, Hlast.
  assert (without_volume b0 = without_volume c0) as Hw0 by congruence.
  assert (without_volume b1 = without_volume c1) as Hw1 by congruence.
  clear Hfirst Hlast.
  exists c0, c1. repeat split; try assumption.
  - now rewrite <- (without_volume_eq_Open _ _ Hw0),
                <- (without_volume_eq_Close _ _ Hw1).
  - rewrite <- (same_prices_column High f1 f2 (fun _ => eq_refl) Hsame).
    now rewrite <- (without_volume_eq_Close _ _ Hw1).
Qed.

Lemma positive_risk_prices f1 f2 :
  same_prices f1 f2 -> positive_risk f1 -> positive_risk f2.
Proof.
  intros Hsame (b0 & Hb0 & Hrisk).
  pose proof (same_prices_first f1 f2 Hsame) as Hfirst.
  rewrite Hb0 in Hfirst.
  destruct (first_bar f2) as [c0 |] eqn:Hc0; [ | discriminate Hfirst ].
  cbn [option_map] in Hfirst.
  assert (without_volume b0 = without_volume c0) as Hw0 by congruence.
  exists c0. split; [exact Hc0 |].
  rewrite <- (same_prices_column High f1 f2 (fun _ => eq_refl) Hsame).
  now rewrite <- (without_volume_eq_Open _ _ Hw0).
Qed.

Lemma same_prices_sym f1 f2 : same_prices f1 f2 -> same_prices f2 f1.
Proof. intros [H1 H2]. now split. Qed.

(** Without a baseline the intraday rule is condition A and the risk. *)
Lemma intraday_rule_no_baseline bars :
  has_volume bars = false \/ List.length (rows bars) = 1 ->
  (intraday_rule bars <-> near_high_breakout bars /\ positive_risk bars).
Proof.
  intros Hcase.
  destruct (volume_stats_no_baseline _ Hcase) as [_ Havg].
  unfold intraday_rule. split.
  - intros (_ & HA & _ & Hrisk). now split.
  - intros [HA Hrisk].
    destruct HA as (b0 & b1 & Hb0 & Hb1 & HA).
    split.
    + unfold first_bar in Hb0. intros Hnil. rewrite Hnil in Hb0. discriminate.
    + split; [now exists b0, b1 |]. split; [ | exact Hrisk ].
      exists b1. split; [exact Hb1 |]. left. now rewrite Havg.
Qed.

Lemma no_baseline_prices f1 f2 :
  same_prices f1 f2 ->
  has_volume f1 = false \/ List.length (rows f1) = 1 ->
  has_volume f2 = false \/ List.length (rows f2) = 1.
Proof.
  intros Hsame [Hno | Hone].
  - left. destruct Hsame as [Hvol _]. congruence.
  - right. now rewrite <- (same_prices_length f1 f2 Hsame).
Qed.

(** * The claims *)

(** C1 (as amended).  For a ticker of the long-term universe whose fetch
    returns a series, the long-term scan emits a row for the ticker if and
    only if the series' last close is at most [min(Low) * 1.05] and is not
    zero.  (With a zero last close inside the threshold the upside
    percentage divides by zero; the exception is caught, a warning is
    shown and no row is appended.  An empty series has no last close and
    gets no row, so the statement needs no separate case for it.) *)
Theorem long_term_emits_iff (w : World) (scr : list ui_event) (t : string)
  (df : PriceFrame) :
  In t NIFTY_100_STOCKS ->
  yf_download w t = Ok df ->
  (suggests (table (find_long_term_suggestions w scr)) t <->
   near_52_week_low df /\ nonzero_last_close df).
Proof.
  intros Hin Hfetch. rewrite long_term_table. unfold suggests.
  rewrite (keyed_rows _ _ _ _ (long_term_rows_stock w)).
  split.
  - intros (i & _ & Hrows).
    rewrite long_term_rows_pick, Hfetch in Hrows.
    now apply long_term_pick_rule in Hrows.
  - intros Hrule. destruct (In_nth_error _ _ Hin) as [i Hi].
    exists i. split; [exact Hi |].
    rewrite long_term_rows_pick, Hfetch.
    now apply long_term_pick_rule.
Qed.

(** C1 at the example of the specification: last close 93, low 90. *)
Lemma long_term_emits_iff_witness :
  suggests (table (find_long_term_suggestions sample_world [])) "TCS.NS" <->
  near_52_week_low year_example /\ nonzero_last_close year_example.
Proof.
  apply (long_term_emits_iff sample_world [] "TCS.NS" year_example).
  - right. left. reflexivity.
  - reflexivity.
Defined.

(** C1, the claim as stated fails: the series of INFY.NS closes at 0, which
    is within 5% of its low of 0, and yet the scan has no row for it. *)
Lemma zero_close_not_suggested :
  In "INFY.NS"%string NIFTY_100_STOCKS /\
  yf_download sample_world "INFY.NS" = Ok zero_frame /\
  df_empty zero_frame = false /\
  near_52_week_low zero_frame /\
  ~ suggests (table (find_long_term_suggestions sample_world [])) "INFY.NS".
Proof.
  split; [do 4 right; left; reflexivity |].
  split; [reflexivity |]. split; [reflexivity |]. split.
  - exists (bar 3 0 0 0 0 0). split; reflexivity.
  - intros (r & Hin & Hr). vm_compute in Hin.
    destruct Hin as [<- | []]. discriminate Hr.
Qed.

(** C2.  For a ticker of the intraday universe whose sub-series is
    extracted from the batch, the intraday scan emits a row for the ticker
    if and only if today has at least one bar, condition A holds (the last
    close is above the first open and at least [max(High) * 0.995]),
    condition B holds (the average volume of the prior window is 0, or the
    last volume exceeds 1.5 times that average) and the risk
    [(max(High) + 0.05) - open] is positive. *)
Theorem intraday_emits_iff (w : World) (scr : list ui_event)
  (data : BatchFrame) (i : nat) (t : string) (frame : PriceFrame) :
  yf_download_batch w = Ok data ->
  nth_error NIFTY_50_STOCKS i = Some t ->
  loc_ticker data t = Ok frame ->
  (proposes (table (find_intraday_opportunities w scr)) t <->
   intraday_rule (on_date (today w i) frame)).
Proof.
  intros Hbatch Hnth Hloc.
  rewrite (intraday_proposes w scr data t Hbatch).
  split.
  - intros (j & Hj & Hrows).
    rewrite (nth_error_unique _ _ _ _ NoDup_NIFTY_50 Hnth Hj).
    rewrite intraday_rows_pick, Hloc in Hrows.
    now apply intraday_pick_rule in Hrows.
  - intros Hrule. exists i. split; [exact Hnth |].
    rewrite intraday_rows_pick, Hloc.
    now apply intraday_pick_rule.
Qed.

(** C2 at the intraday example of the specification. *)
Lemma intraday_emits_iff_witness :
  proposes (table (find_intraday_opportunities sample_world [])) "TCS.NS" <->
  intraday_rule (on_date 7 day_example).
Proof.
  apply (intraday_emits_iff sample_world [] sample_batch 1 "TCS.NS" day_example);
    reflexivity.
Defined.

(** C3 (as amended).  If the batch fetch of the intraday scan raises, the
    exception leaves the scan: no table is returned, no ticker is
    evaluated, and the screen only shows the two widgets created before
    the fetch. *)
Theorem batch_failure_propagates (w : World) (scr : list ui_event) (e : exn) :
  yf_download_batch w = Raise e ->
  find_intraday_opportunities w scr = (Raise e, scr ++ [StProgress 0; StEmpty]).
Proof.
  intros Hbatch.
  unfold find_intraday_opportunities, intraday_scan, bind, emit, lift.
  cbv beta iota. rewrite Hbatch.
  cbn [suggestions screen]. now rewrite <- app_assoc.
Qed.

(** C3 in a world whose provider cannot be reached. *)
Lemma batch_failure_propagates_witness :
  find_intraday_opportunities offline_world [] =
  (Raise (ProviderError "Connection refused"), [StProgress 0; StEmpty]).
Proof.
  apply (batch_failure_propagates offline_world []
           (ProviderError "Connection refused")).
  reflexivity.
Defined.

(** C3, the claim as stated fails: with a provider that cannot be reached
    the intraday scan does not return an empty table, it raises. *)
Lemma batch_failure_is_not_an_empty_table :
  yf_download_batch offline_world = Raise (ProviderError "Connection refused") /\
  fst (find_intraday_opportunities offline_world []) =
    Raise (ProviderError "Connection refused") /\
  fst (find_intraday_opportunities offline_world []) <> Ok [].
Proof.
  split; [reflexivity |]. split; [reflexivity |]. discriminate.
Qed.

(** C4.  The intraday universe has 50 symbols; the long-term universe,
    which the source calls Nifty 100, has 97. *)
Theorem universe_sizes :
  List.length NIFTY_100_STOCKS = 97 /\ List.length NIFTY_50_STOCKS = 50.
Proof. split; reflexivity. Qed.

(** C5.  A ticker whose fetch or computation raises gets no row, and the
    scan still returns; the rows of the other tickers are what they would
    be without the failure; the long-term scan shows one warning per
    failing ticker and the intraday scan shows none. *)
Theorem fault_isolation (w : World) (scr : list ui_event) :
  (* the long-term scan *)
  is_raise (fst (find_long_term_suggestions w scr)) = false /\
  (forall i t, nth_error NIFTY_100_STOCKS i = Some t ->
     long_term_failure w i t <> None ->
     ~ suggests (table (find_long_term_suggestions w scr)) t) /\
  (forall w' scr' t0,
     (forall t, t <> t0 -> yf_download w' t = yf_download w t) ->
     filter (fun r => other_than t0 (sr_Stock r))
            (table (find_long_term_suggestions w' scr')) =
     filter (fun r => other_than t0 (sr_Stock r))
            (table (find_long_term_suggestions w scr))) /\
  warnings (snd (find_long_term_suggestions w scr)) =
    warnings scr ++ owed_warnings w /\
  (* the intraday scan *)
  (forall data, yf_download_batch w = Ok data ->
     is_raise (fst (find_intraday_opportunities w scr)) = false /\
     (forall i t, nth_error NIFTY_50_STOCKS i = Some t ->
        intraday_failure w data i t <> None ->
        ~ proposes (table (find_intraday_opportunities w scr)) t) /\
     (forall w' scr' data' t0,
        yf_download_batch w' = Ok data' ->
        (forall t, t <> t0 -> loc_ticker data' t = loc_ticker data t) ->
        (forall i, today w' i = today w i) ->
        filter (fun r => other_than t0 (or_Stock r))
               (table (find_intraday_opportunities w' scr')) =
        filter (fun r => other_than t0 (or_Stock r))
               (table (find_intraday_opportunities w scr)))) /\
  warnings (snd (find_intraday_opportunities w scr)) = warnings scr.
Proof.
  split; [now rewrite long_term_run |].
  split.
  { intros i t Hnth Hfail Hrow. apply long_term_suggests in Hrow.
    destruct Hrow as (j & Hj & Hrows).
    rewrite <- (nth_error_unique _ _ _ _ NoDup_NIFTY_100 Hnth Hj) in Hrows.
    now apply Hrows, long_term_failure_no_rows. }
  split; [intros w' scr' t0; apply long_term_isolated |].
  split; [apply long_term_warnings |].
  split; [ | apply intraday_warnings ].
  intros data Hbatch.
  split; [now rewrite (intraday_run w scr data Hbatch) |].
  split.
  { intros i t Hnth Hfail Hrow.
    apply (intraday_proposes w scr data t Hbatch) in Hrow.
    destruct Hrow as (j & Hj & Hrows).
    rewrite <- (nth_error_unique _ _ _ _ NoDup_NIFTY_50 Hnth Hj) in Hrows.
    now apply Hrows, intraday_failure_no_rows. }
  intros w' scr' data' t0 Hbatch'. now apply intraday_isolated.
Qed.

(** C5 in the sample world: ITC.NS fails in the long-term scan (and INFY.NS
    divides by zero), RELIANCE.NS is missing from the batch. *)
Lemma fault_isolation_witness :
  long_term_failure sample_world 7 "ITC.NS" <> None /\
  ~ suggests (table (find_long_term_suggestions sample_world [])) "ITC.NS" /\
  warnings (snd (find_long_term_suggestions sample_world [])) =
    ["Could not analyze INFY.NS. Error: float division by zero"%string;
     "Could not analyze ITC.NS. Error: No data found"%string] /\
  intraday_failure sample_world sample_batch 0 "RELIANCE.NS" <> None /\
  ~ proposes (table (find_intraday_opportunities sample_world [])) "RELIANCE.NS" /\
  warnings (snd (find_intraday_opportunities sample_world [])) = [].
Proof.
  destruct (fault_isolation sample_world [])
    as (_ & Hlong & _ & Hwarn & Hintra & Hquiet).
  destruct (Hintra sample_batch eq_refl) as (_ & Hrow & _).
  split; [discriminate |].
  split; [apply (Hlong 7); [reflexivity | discriminate] |].
  split; [exact Hwarn |].
  split; [discriminate |].
  split; [apply (Hrow 0); [reflexivity | discriminate] | exact Hquiet].
Defined.

(** C6 (as amended).  The long-term scan, and the intraday scan whenever
    its batch fetch returns, report progress exactly once per ticker,
    whatever the ticker's outcome and whether or not the widget accepts
    the update; the report after ticker [i] of [N] is
    [min(1.0, (i+1)/N)]; the reports never decrease and the last one is
    1.0. *)
Theorem progress_reports_spec (w : World) (scr : list ui_event) :
  (progress_reports (snd (find_long_term_suggestions w scr)) =
     progress_reports scr ++ expected_progress (List.length NIFTY_100_STOCKS) /\
   (forall data, yf_download_batch w = Ok data ->
      progress_reports (snd (find_intraday_opportunities w scr)) =
        progress_reports scr ++ expected_progress (List.length NIFTY_50_STOCKS))) /\
  (forall n, n = List.length NIFTY_100_STOCKS \/ n = List.length NIFTY_50_STOCKS ->
     List.length (expected_progress n) = n /\
     (forall i, i < n ->
        nth_error (expected_progress n) i =
        Some (py_min 1 (float_of_nat (i + 1) / float_of_nat n)%float)) /\
     nondecreasing (expected_progress n) = true /\
     last (expected_progress n) 0%float = 1%float).
Proof.
  split.
  - split; [apply long_term_progress | intros data; apply intraday_progress].
  - intros n Hn.
    split; [apply length_expected_progress |].
    split; [apply nth_expected_progress |].
    destruct Hn as [-> | ->].
    + rewrite length_NIFTY_100. apply progress_97_shape.
    + rewrite length_NIFTY_50. apply progress_50_shape.
Qed.

(** C6 for the intraday scan of the sample world. *)
Lemma progress_reports_spec_witness :
  progress_reports (snd (find_intraday_opportunities sample_world [])) =
    expected_progress 50 /\
  nth_error (expected_progress 50) 24 = Some 0.5%float /\
  nondecreasing (expected_progress 50) = true /\
  last (expected_progress 50) 0%float = 1%float.
Proof.
  destruct (progress_reports_spec sample_world []) as [[_ Hintra] Hshape].
  destruct (Hshape 50 (or_intror eq_refl)) as (_ & Hnth & Hmono & Hlast).
  split; [exact (Hintra sample_batch eq_refl) |].
  split; [exact (Hnth 24 ltac:(lia)) |].
  split; assumption.
Defined.

(** C6, the claim as stated fails: when the batch fetch raises, the
    intraday scan over its 50 tickers reports no progress at all. *)
Lemma no_progress_when_batch_fails :
  List.length NIFTY_50_STOCKS = 50 /\
  is_raise (yf_download_batch offline_world) = true /\
  progress_reports (snd (find_intraday_opportunities offline_world [])) = [].
Proof. repeat split. Qed.



(** C8.  In the table of either scan every ticker has at most one row, the
    rows follow the order of the universe, and the table is no longer than
    the universe. *)
Theorem tables_follow_universe (w : World) (scr : list ui_event) :
  (subsequence (map sr_Stock (table (find_long_term_suggestions w scr)))
               NIFTY_100_STOCKS /\
   (forall t, count_occ string_dec
                (map sr_Stock (table (find_long_term_suggestions w scr))) t <= 1) /\
   List.length (table (find_long_term_suggestions w scr))
     <= List.length NIFTY_100_STOCKS) /\
  (subsequence (map or_Stock (table (find_intraday_opportunities w scr)))
               NIFTY_50_STOCKS /\
   (forall t, count_occ string_dec
                (map or_Stock (table (find_intraday_opportunities w scr))) t <= 1) /\
   List.length (table (find_intraday_opportunities w scr))
     <= List.length NIFTY_50_STOCKS).
Proof.
  pose proof (long_term_stocks_subsequence w scr) as Hlong.
  pose proof (intraday_stocks_subsequence w scr) as Hintra.
  split; (split; [assumption |]); split.
  - intros t. etransitivity; [apply (subsequence_count _ _ t Hlong) |].
    apply NoDup_count, NoDup_NIFTY_100.
  - rewrite <- (length_map sr_Stock). now apply subsequence_length.
  - intros t. etransitivity; [apply (subsequence_count _ _ t Hintra) |].
    apply NoDup_count, NoDup_NIFTY_50.
  - rewrite <- (length_map or_Stock). now apply subsequence_length.
Qed.

(** C9 (as amended).  The table of the long-term scan is a function of the
    series fetched for the tickers of its universe; the table of the
    intraday scan is a function of the fetched batch and of the dates the
    clock shows while the tickers are processed.  Neither depends on the
    screen, on the progress widget or on an earlier call: a second call
    returns what the first one returned. *)
Theorem scans_deterministic (w w' : World) (scr scr' : list ui_event) :
  ((forall t, In t NIFTY_100_STOCKS -> yf_download w t = yf_download w' t) ->
   fst (find_long_term_suggestions w scr) =
   fst (find_long_term_suggestions w' scr')) /\
  (yf_download_batch w = yf_download_batch w' ->
   (forall i, i < List.length NIFTY_50_STOCKS -> today w i = today w' i) ->
   fst (find_intraday_opportunities w scr) =
   fst (find_intraday_opportunities w' scr')) /\
  fst (find_long_term_suggestions w (snd (find_long_term_suggestions w scr))) =
    fst (find_long_term_suggestions w scr) /\
  fst (find_intraday_opportunities w (snd (find_intraday_opportunities w scr))) =
    fst (find_intraday_opportunities w scr).
Proof.
  split; [apply long_term_table_ext |].
  split; [apply intraday_table_ext |].
  split; [now apply long_term_table_ext | now apply intraday_table_ext].
Qed.

(** C9: the long-term table is the same on the next day and on a used
    screen, and a second intraday call repeats the first. *)
Lemma scans_deterministic_witness :
  fst (find_long_term_suggestions sample_world []) =
    fst (find_long_term_suggestions next_day_world [StWarning "earlier run"]) /\
  fst (find_intraday_opportunities sample_world
         (snd (find_intraday_opportunities sample_world []))) =
    fst (find_intraday_opportunities sample_world []).
Proof.
  destruct (scans_deterministic sample_world next_day_world []
              [StWarning "earlier run"]) as (Hlong & _).
  destruct (scans_deterministic sample_world sample_world [] [])
    as (_ & _ & _ & Hagain).
  split; [apply Hlong; intros t _; reflexivity | exact Hagain].
Defined.

(** C9, the claim as stated fails: the same fetched batch gives a table
    with two rows on day 7 and an empty table on day 8. *)
Lemma same_batch_different_day :
  yf_download_batch sample_world = yf_download_batch next_day_world /\
  List.length (table (find_intraday_opportunities sample_world [])) = 2 /\
  fst (find_intraday_opportunities next_day_world []) = Ok [] /\
  fst (find_intraday_opportunities sample_world []) <>
  fst (find_intraday_opportunities next_day_world []).
Proof.
  split; [reflexivity |]. split; [reflexivity |]. split; [reflexivity |].
  vm_compute. discriminate.
Qed.

(** C10.  When today's sub-series has no Volume column, or has exactly one
    bar, the scan sets both [avg_volume] and [last_volume] to 0 instead of
    reading them from the data, condition B holds through
    [avg_volume == 0], and a row is emitted if and only if condition A
    holds and the risk is positive.  The volumes are not consulted: a
    batch that differs from this one in the volumes of the ticker's bars
    only leads to the same decision. *)
Theorem no_volume_baseline (w : World) (scr : list ui_event)
  (data : BatchFrame) (i : nat) (t : string) (frame : PriceFrame) :
  yf_download_batch w = Ok data ->
  nth_error NIFTY_50_STOCKS i = Some t ->
  loc_ticker data t = Ok frame ->
  has_volume (on_date (today w i) frame) = false \/
  List.length (rows (on_date (today w i) frame)) = 1 ->
  volume_stats (on_date (today w i) frame) = Ok (0%float, 0%float) /\
  (forall avg_volume last_volume,
     volume_stats (on_date (today w i) frame) = Ok (avg_volume, last_volume) ->
     ((avg_volume =? 0) || (avg_volume * 1.5 <? last_volume))%float = true) /\
  (proposes (table (find_intraday_opportunities w scr)) t <->
   near_high_breakout (on_date (today w i) frame) /\
   positive_risk (on_date (today w i) frame)) /\
  (forall w' scr' data' frame',
     yf_download_batch w' = Ok data' ->
     loc_ticker data' t = Ok frame' ->
     today w' i = today w i ->
     same_prices frame frame' ->
     (proposes (table (find_intraday_opportunities w' scr')) t <->
      proposes (table (find_intraday_opportunities w scr)) t)).
Proof.
  intros Hbatch Hnth Hloc Hcase.
  destruct (volume_stats_no_baseline _ Hcase) as [Hstats Havg].
  split; [exact Hstats |]. split.
  { intros avg_volume last_volume Hread. rewrite Hstats in Hread.
    inversion Hread. reflexivity. }
  rewrite (intraday_proposes_rule w scr data i t frame Hbatch Hnth Hloc).
  split; [now apply intraday_rule_no_baseline |].
  intros w' scr' data' frame' Hbatch' Hloc' Hclock Hsame.
  rewrite (intraday_proposes_rule w' scr' data' i t frame' Hbatch' Hnth Hloc').
  rewrite (intraday_proposes_rule w scr data i t frame Hbatch Hnth Hloc).
  rewrite Hclock.
  pose proof (same_prices_on_date (today w i) frame frame' Hsame) as Hday.
  rewrite (intraday_rule_no_baseline _ Hcase).
  rewrite (intraday_rule_no_baseline _ (no_baseline_prices _ _ Hday Hcase)).
  split; intros [HA Hrisk]; split.
  - now apply (near_high_breakout_prices _ _ (same_prices_sym _ _ Hday)).
  - now apply (positive_risk_prices _ _ (same_prices_sym _ _ Hday)).
  - now apply (near_high_breakout_prices _ _ Hday).
  - now apply (positive_risk_prices _ _ Hday).
Qed.

(** C10 for INFY.NS, whose day has a single bar with volume 12345. *)
Lemma no_volume_baseline_witness :
  List.length (rows (on_date 7 single_bar_day)) = 1 /\
  volume_stats (on_date 7 single_bar_day) = Ok (0%float, 0%float) /\
  (proposes (table (find_intraday_opportunities sample_world [])) "INFY.NS" <->
   near_high_breakout (on_date 7 single_bar_day) /\
   positive_risk (on_date 7 single_bar_day)).
Proof.
  destruct (no_volume_baseline sample_world [] sample_batch 4 "INFY.NS"
              single_bar_day eq_refl eq_refl eq_refl (or_intror eq_refl))
    as (Hstats & _ & Hrow & _).
  split; [reflexivity |]. split; [exact Hstats | exact Hrow].
Defined.

(** * Further properties of the code *)

(** ** The page script *)

Lemma long_term_column_run v evs :
  long_term_column v evs = (Ok tt, evs ++ long_term_section v).
Proof.
  unfold long_term_column, long_term_section, page_bind, show, button, with_,
    call_long_term, page_ret, long_term_verdict.
  destruct (long_term_clicked v).
  - rewrite long_term_run. cbn [fst snd table].
    destruct (flat_map _ _) as [| r t]; cbn [results_empty negb];
      rewrite <- !app_assoc; reflexivity.
  - rewrite <- !app_assoc. reflexivity.
Qed.

Lemma intraday_column_run v evs :
  intraday_column v evs =
  (match intraday_stops v with Some e => Raise e | None => Ok tt end,
   evs ++ intraday_section v).
Proof.
  unfold intraday_column, intraday_section, intraday_stops, page_bind, show,
    button, with_, call_intraday, page_ret, intraday_verdict.
  destruct (intraday_clicked v).
  - destruct (yf_download_batch (visit_world v)) as [data | e] eqn:Hbatch.
    + rewrite (intraday_run _ [] data Hbatch). cbn [fst snd raised].
      destruct (flat_map _ _) as [| r t]; cbn [results_empty negb];
        rewrite <- !app_assoc; reflexivity.
    + rewrite (intraday_abort _ [] e Hbatch). cbn [fst snd raised].
      rewrite <- !app_assoc. reflexivity.
  - rewrite <- !app_assoc. reflexivity.
Qed.

(** The script runs the two columns in turn; an exception of the intraday
    scan ends it inside the second column. *)
Lemma my_dashboard_run v :
  my_dashboard v =
  match intraday_stops v with
  | None =>
      (Ok tt,
       page_top v ++ EnterColumn 1 :: long_term_section v ++ LeaveColumn 1
       :: EnterColumn 2 :: intraday_section v ++ LeaveColumn 2 :: page_bottom)
  | Some e =>
      (Raise e,
       page_top v ++ EnterColumn 1 :: long_term_section v ++ LeaveColumn 1
       :: EnterColumn 2 :: intraday_section v ++ [LeaveColumn 2])
  end.
Proof.
  unfold my_dashboard, page_bind, show, with_. cbn [app].
  rewrite long_term_column_run, intraday_column_run.
  unfold page_top, page_bottom.
  destruct (intraday_stops v); cbn [app]; rewrite <- !app_assoc; reflexivity.
Qed.

Lemma successes_app a b : successes (a ++ b) = successes a ++ successes b.
Proof. apply flat_map_app. Qed.

Lemma page_warnings_app a b :
  page_warnings (a ++ b) = page_warnings a ++ page_warnings b.
Proof. apply flat_map_app. Qed.

Lemma long_term_tables_app a b :
  long_term_tables (a ++ b) = long_term_tables a ++ long_term_tables b.
Proof. apply flat_map_app. Qed.

Lemma intraday_tables_app a b :
  intraday_tables (a ++ b) = intraday_tables a ++ intraday_tables b.
Proof. apply flat_map_app. Qed.

Lemma successes_widgets scr : successes (map Widget scr) = [].
Proof. induction scr as [| ev scr IH]; [reflexivity | exact IH]. Qed.

Lemma long_term_tables_widgets scr : long_term_tables (map Widget scr) = [].
Proof. induction scr as [| ev scr IH]; [reflexivity | exact IH]. Qed.

Lemma intraday_tables_widgets scr : intraday_tables (map Widget scr) = [].
Proof. induction scr as [| ev scr IH]; [reflexivity | exact IH]. Qed.

Lemma page_warnings_widgets scr : page_warnings (map Widget scr) = warnings scr.
Proof.
  induction scr as [| ev scr IH]; [reflexivity |].
  change (page_warnings (map Widget (ev :: scr)))
    with (match ev with StWarning s => [s] | _ => [] end
          ++ page_warnings (map Widget scr)).
  rewrite IH. reflexivity.
Qed.

Lemma successes_cons ev l :
  successes (ev :: l) =
  match ev with Success s => [s] | _ => [] end ++ successes l.
Proof. reflexivity. Qed.

Lemma page_warnings_cons ev l :
  page_warnings (ev :: l) =
  match ev with Widget (StWarning s) => [s] | _ => [] end ++ page_warnings l.
Proof. reflexivity. Qed.

Lemma long_term_tables_cons ev l :
  long_term_tables (ev :: l) =
  match ev with DataframeLongTerm t => [t] | _ => [] end ++ long_term_tables l.
Proof. reflexivity. Qed.

Lemma intraday_tables_cons ev l :
  intraday_tables (ev :: l) =
  match ev with DataframeIntraday t => [t] | _ => [] end ++ intraday_tables l.
Proof. reflexivity. Qed.

Ltac read_page :=
  repeat first
    [ rewrite successes_cons | rewrite page_warnings_cons
    | rewrite long_term_tables_cons | rewrite intraday_tables_cons
    | rewrite successes_app | rewrite page_warnings_app
    | rewrite long_term_tables_app | rewrite intraday_tables_app
    | rewrite successes_widgets | rewrite page_warnings_widgets
    | rewrite long_term_tables_widgets | rewrite intraday_tables_widgets ];
  cbn [app successes page_warnings long_term_tables intraday_tables flat_map];
  rewrite ?app_nil_r.

(** What each column shows. *)
Lemma long_term_section_shows v :
  successes (long_term_section v) =
    (if long_term_clicked v
     then match table (find_long_term_suggestions (visit_world v) []) with
          | [] => []
          | t => [found_long_term (List.length t)]
          end
     else []) /\
  long_term_tables (long_term_section v) =
    (if long_term_clicked v
     then match table (find_long_term_suggestions (visit_world v) []) with
          | [] => []
          | t => [t]
          end
     else []) /\
  intraday_tables (long_term_section v) = [] /\
  page_warnings (long_term_section v) =
    (if long_term_clicked v
     then warnings (snd (find_long_term_suggestions (visit_world v) []))
          ++ match table (find_long_term_suggestions (visit_world v) []) with
             | [] => [no_long_term_text]
             | _ => []
             end
     else []).
Proof.
  unfold long_term_section, long_term_verdict.
  destruct (long_term_clicked v); [ | repeat split; reflexivity ].
  destruct (table _) as [| r t]; cbn [results_empty];
    repeat split; read_page; reflexivity.
Qed.

Lemma intraday_section_shows v :
  successes (intraday_section v) =
    (if intraday_clicked v
     then match table (find_intraday_opportunities (visit_world v) []) with
          | [] => []
          | t => [found_intraday (List.length t)]
          end
     else []) /\
  intraday_tables (intraday_section v) =
    (if intraday_clicked v
     then match table (find_intraday_opportunities (visit_world v) []) with
          | [] => []
          | t => [t]
          end
     else []) /\
  long_term_tables (intraday_section v) = [] /\
  page_warnings (intraday_section v) =
    (if intraday_clicked v
     then match fst (find_intraday_opportunities (visit_world v) []) with
          | Ok [] => [no_intraday_text]
          | _ => []
          end
     else []).
Proof.
  unfold intraday_section, intraday_verdict, table.
  destruct (intraday_clicked v); [ | repeat split; reflexivity ].
  pose proof (intraday_warnings (visit_world v) []) as Hquiet.
  cbn [warnings flat_map] in Hquiet.
  destruct (fst _) as [[| r t] | e]; cbn [results_empty];
    repeat split; read_page; rewrite ?Hquiet; reflexivity.
Qed.

Lemma my_dashboard_screen v :
  exists tail_,
    snd (my_dashboard v) =
    page_top v ++ EnterColumn 1 :: long_term_section v ++ LeaveColumn 1
    :: EnterColumn 2 :: intraday_section v ++ LeaveColumn 2 :: tail_ /\
    tail_ = match fst (my_dashboard v) with Ok _ => page_bottom | Raise _ => [] end.
Proof.
  rewrite my_dashboard_run.
  destruct (intraday_stops v); cbn [fst snd]; eexists; split; reflexivity.
Qed.

(** X1.  A success message appears exactly for a clicked button whose scan
    returned a table with at least one row; it states the number of rows
    of that table, and the table is displayed once.  The long-term message
    comes first. *)
Theorem page_successes (v : Visit) :
  successes (snd (my_dashboard v)) =
    match shown_long_term v with
    | [] => []
    | t => [found_long_term (List.length t)]
    end ++
    match shown_intraday v with
    | [] => []
    | t => [found_intraday (List.length t)]
    end /\
  long_term_tables (snd (my_dashboard v)) =
    match shown_long_term v with [] => [] | t => [t] end /\
  intraday_tables (snd (my_dashboard v)) =
    match shown_intraday v with [] => [] | t => [t] end.
Proof.
  destruct (my_dashboard_screen v) as (tail_ & -> & Htail).
  destruct (long_term_section_shows v) as (Hs1 & Ht1 & Hi1 & _).
  destruct (intraday_section_shows v) as (Hs2 & Hi2 & Ht2 & _).
  assert (successes tail_ = [] /\ long_term_tables tail_ = []
          /\ intraday_tables tail_ = []) as (Hs3 & Ht3 & Hi3)
    by (rewrite Htail; destruct (fst (my_dashboard v)); repeat split).
  unfold page_top, shown_long_term, shown_intraday.
  repeat split; read_page;
    rewrite ?Hs1, ?Hs2, ?Hs3, ?Ht1, ?Ht2, ?Ht3, ?Hi1, ?Hi2, ?Hi3, ?app_nil_r;
    destruct (long_term_clicked v), (intraday_clicked v);
    rewrite ?app_nil_r; reflexivity.
Qed.

(** X2.  The warnings on the page are, in this order: after a click on the
    long-term button, the per-ticker warnings of the long-term scan and,
    when its table is empty, the no-match message; after a click on the
    intraday button whose scan returned an empty table, the intraday
    no-match message; and the disclaimer, unless the script was stopped by
    an exception. *)
Theorem page_warning_list (v : Visit) :
  page_warnings (snd (my_dashboard v)) =
    (if long_term_clicked v
     then warnings (snd (find_long_term_suggestions (visit_world v) []))
          ++ match table (find_long_term_suggestions (visit_world v) []) with
             | [] => [no_long_term_text]
             | _ => []
             end
     else [])
    ++ (if intraday_clicked v
        then match fst (find_intraday_opportunities (visit_world v) []) with
             | Ok [] => [no_intraday_text]
             | _ => []
             end
        else [])
    ++ match fst (my_dashboard v) with
       | Ok _ => [disclaimer_text]
       | Raise _ => []
       end.
Proof.
  destruct (my_dashboard_screen v) as (tail_ & -> & Htail).
  destruct (long_term_section_shows v) as (_ & _ & _ & Hw1).
  destruct (intraday_section_shows v) as (_ & _ & _ & Hw2).
  assert (page_warnings tail_ =
          match fst (my_dashboard v) with
          | Ok _ => [disclaimer_text]
          | Raise _ => []
          end) as Hw3
    by (rewrite Htail; destruct (fst (my_dashboard v)); reflexivity).
  unfold page_top. read_page. now rewrite Hw1, Hw2, Hw3.
Qed.

(** The script stops exactly when the intraday button was clicked and the
    batch fetch raises. *)
Lemma my_dashboard_outcome v :
  fst (my_dashboard v) =
  if intraday_clicked v
  then match yf_download_batch (visit_world v) with
       | Ok _ => Ok tt
       | Raise e => Raise e
       end
  else Ok tt.
Proof.
  rewrite my_dashboard_run. unfold intraday_stops.
  destruct (intraday_clicked v); [ | reflexivity ].
  destruct (yf_download_batch (visit_world v)); reflexivity.
Qed.

Lemma in_page_warnings s evs :
  In (Widget (StWarning s)) evs <-> In s (page_warnings evs).
Proof.
  unfold page_warnings. rewrite in_flat_map. split.
  - intros H. exists (Widget (StWarning s)). split; [exact H | now left].
  - intros (ev & Hev & Hs).
    destruct ev as [| | | | | | | | | | | | | | | w]; try contradiction.
    destruct w; try contradiction. destruct Hs as [<- | []]. exact Hev.
Qed.

Lemma owed_warning_text w s :
  In s (owed_warnings w) -> exists t e, s = long_term_warning t e.
Proof.
  unfold owed_warnings. rewrite in_flat_map. intros ([i t] & _ & Hs).
  cbn [fst snd] in Hs. destruct (long_term_failure w i t) as [e |];
    [ | contradiction ].
  destruct Hs as [<- | []]. now exists t, e.
Qed.

Lemma disclaimer_is_no_scan_warning t e :
  long_term_warning t e <> disclaimer_text.
Proof. unfold long_term_warning, disclaimer_text. cbn. discriminate. Qed.

(** On a page whose script was stopped, the only warnings are those of
    the long-term column. *)
Lemma stopped_page_warnings v s :
  is_raise (fst (my_dashboard v)) = true ->
  In s (page_warnings (snd (my_dashboard v))) ->
  (exists t e, s = long_term_warning t e) \/ s = no_long_term_text.
Proof.
  intros Hstop.
  destruct (my_dashboard_screen v) as (tail_ & -> & Htail).
  destruct (long_term_section_shows v) as (_ & _ & _ & Hw1).
  destruct (intraday_section_shows v) as (_ & _ & _ & Hw2).
  rewrite my_dashboard_outcome in Hstop.
  destruct (fst (my_dashboard v)) eqn:Hout;
    [rewrite my_dashboard_outcome in Hout |].
  { destruct (intraday_clicked v); [ | discriminate Hstop ].
    destruct (yf_download_batch (visit_world v)); discriminate. }
  subst tail_.
  destruct (intraday_clicked v); [ | discriminate Hstop ].
  destruct (yf_download_batch (visit_world v)) as [data | e'] eqn:Hbatch;
    [discriminate Hstop |].
  rewrite (intraday_abort (visit_world v) [] e' Hbatch) in Hw2.
  unfold page_top. read_page. rewrite Hw1, Hw2. cbn [fst]. rewrite app_nil_r.
  destruct (long_term_clicked v); [ | intros [] ].
  rewrite long_term_warnings. cbn [warnings flat_map app].
  rewrite in_app_iff. intros [Hin | Hin].
  - left. now apply owed_warning_text in Hin.
  - right. destruct (table _); [ | contradiction ].
    now destruct Hin as [<- | []].
Qed.

(** X3.  The script is stopped by an exception exactly when the intraday
    button was clicked and the batch fetch raises; it is never stopped by
    the long-term scan.  Every page starts with the same five calls; a
    script that completes ends with the rule and the disclaimer, and one
    that is stopped shows no disclaimer, no intraday verdict and ends by
    leaving the spinner and the second column. *)
Theorem page_outcome (v : Visit) :
  fst (my_dashboard v) =
    (if intraday_clicked v
     then match yf_download_batch (visit_world v) with
          | Ok _ => Ok tt
          | Raise e => Raise e
          end
     else Ok tt) /\
  (exists rest, snd (my_dashboard v) = page_top v ++ rest) /\
  (is_raise (fst (my_dashboard v)) = false ->
   exists front, snd (my_dashboard v) = front ++ page_bottom) /\
  (is_raise (fst (my_dashboard v)) = true ->
   ~ In (Widget (StWarning disclaimer_text)) (snd (my_dashboard v)) /\
   ~ In (Widget (StWarning no_intraday_text)) (snd (my_dashboard v)) /\
   intraday_tables (snd (my_dashboard v)) = [] /\
   exists front, snd (my_dashboard v) = front ++ [LeaveSpinner; LeaveColumn 2]).
Proof.
  split; [apply my_dashboard_outcome |].
  split.
  { destruct (my_dashboard_screen v) as (tail_ & Hscr & _). eauto. }
  split.
  { intros Hok. destruct (my_dashboard_screen v) as (tail_ & Hscr & Htail).
    rewrite Hscr, Htail. destruct (fst (my_dashboard v)); [ | discriminate ].
    exists (page_top v ++ EnterColumn 1 :: long_term_section v ++ LeaveColumn 1
            :: EnterColumn 2 :: intraday_section v ++ [LeaveColumn 2]).
    repeat (rewrite <- app_assoc; cbn [app]). reflexivity. }
  intros Hstop.
  pose proof (stopped_page_warnings v) as Hwarn.
  split.
  { rewrite in_page_warnings. intros Hin.
    destruct (Hwarn _ Hstop Hin) as [(t & e' & Heq) | Heq].
    - symmetry in Heq. exact (disclaimer_is_no_scan_warning _ _ Heq).
    - discriminate Heq. }
  split.
  { rewrite in_page_warnings. intros Hin.
    destruct (Hwarn _ Hstop Hin) as [(t & e' & Heq) | Heq].
    - unfold long_term_warning, no_intraday_text in Heq. cbn in Heq.
      discriminate Heq.
    - discriminate Heq. }
  assert (intraday_clicked v = true /\
          exists e, yf_download_batch (visit_world v) = Raise e)
    as (Hclick & e & Hbatch).
  { rewrite my_dashboard_outcome in Hstop.
    destruct (intraday_clicked v); [ | discriminate ].
    destruct (yf_download_batch (visit_world v)) as [data | e];
      [discriminate | eauto]. }
  pose proof (intraday_abort (visit_world v) [] e Hbatch) as Hscan.
  destruct (my_dashboard_screen v) as (tail_ & Hscr & Htail).
  rewrite Hscr, Htail.
  destruct (fst (my_dashboard v)); [discriminate |].
  split.
  { destruct (long_term_section_shows v) as (_ & _ & Hi1 & _).
    destruct (intraday_section_shows v) as (_ & Hi2 & _ & _).
    unfold page_top. read_page. rewrite Hi1, Hi2, Hclick.
    unfold table. rewrite Hscan. reflexivity. }
  unfold intraday_section. rewrite Hclick, Hscan.
  cbn [fst snd map app intraday_verdict].
  exists (page_top v ++ EnterColumn 1 :: long_term_section v ++ LeaveColumn 1
          :: EnterColumn 2
          :: [Header intraday_header; Info intraday_info;
              Button intraday_button; EnterSpinner intraday_spinner;
              Widget (StProgress 0); Widget StEmpty]).
  repeat (rewrite <- app_assoc; cbn [app]). reflexivity.
Qed.

(** X3 on two visits with both buttons clicked: offline, the script is
    stopped in the second column; in the sample world it completes. *)
Lemma page_outcome_witness :
  is_raise (fst (my_dashboard offline_visit)) = true /\
  intraday_tables (snd (my_dashboard offline_visit)) = [] /\
  ~ In (Widget (StWarning disclaimer_text)) (snd (my_dashboard offline_visit)) /\
  is_raise (fst (my_dashboard sample_visit)) = false /\
  exists front, snd (my_dashboard sample_visit) = front ++ page_bottom.
Proof.
  destruct (page_outcome offline_visit) as (_ & _ & _ & Hstop).
  destruct (page_outcome sample_visit) as (_ & _ & Hdone & _).
  destruct (Hstop eq_refl) as (Hdisc & _ & Htab & _).
  exact (conj eq_refl (conj Htab (conj Hdisc (conj eq_refl (Hdone eq_refl))))).
Defined.

(** ** Contexts *)

Lemma open_contexts_app a b stack :
  open_contexts (a ++ b) stack =
  match open_contexts a stack with
  | Some stack' => open_contexts b stack'
  | None => None
  end.
Proof.
  revert stack. induction a as [| ev a IH]; intros stack; [reflexivity |].
  destruct ev; cbn [app open_contexts]; try apply IH.
  - destruct stack as [| [] stack']; try reflexivity.
    destruct (Nat.eqb k k0); [apply IH | reflexivity].
  - destruct stack as [| [] stack']; try reflexivity. apply IH.
Qed.

Lemma open_contexts_widgets scr stack :
  open_contexts (map Widget scr) stack = Some stack.
Proof. induction scr as [| ev scr IH]; [reflexivity | exact IH]. Qed.

Lemma open_contexts_long_term_section v stack :
  open_contexts (long_term_section v) stack = Some stack.
Proof.
  unfold long_term_section, long_term_verdict.
  destruct (long_term_clicked v); [ | reflexivity ].
  cbn [app open_contexts].
  rewrite open_contexts_app, open_contexts_widgets.
  destruct (results_empty _); reflexivity.
Qed.

Lemma open_contexts_intraday_section v stack :
  open_contexts (intraday_section v) stack = Some stack.
Proof.
  unfold intraday_section, intraday_verdict.
  destruct (intraday_clicked v); [ | reflexivity ].
  cbn [app open_contexts].
  rewrite open_contexts_app, open_contexts_widgets.
  destruct (fst _) as [t | e]; [destruct (results_empty t) |]; reflexivity.
Qed.

(** X4.  Every spinner and every column the script opens it also closes,
    innermost first, whether the script completes or is stopped by an
    exception of the intraday scan. *)
Theorem page_contexts_closed (v : Visit) :
  open_contexts (snd (my_dashboard v)) [] = Some [].
Proof.
  destruct (my_dashboard_screen v) as (tail_ & -> & Htail).
  unfold page_top. cbn [app open_contexts].
  rewrite open_contexts_app, open_contexts_long_term_section.
  cbn [open_contexts Nat.eqb].
  rewrite open_contexts_app, open_contexts_intraday_section.
  cbn [open_contexts Nat.eqb].
  rewrite Htail. destruct (fst (my_dashboard v)); reflexivity.
Qed.

(** ** Comparisons of floats *)

Lemma ltb_leb (x y : float) : (x <? y)%float = true -> (x <=? y)%float = true.
Proof.
  rewrite FloatAxioms.ltb_spec, FloatAxioms.leb_spec. unfold SFltb, SFleb.
  destruct (SFcompare (Prim2SF x) (Prim2SF y)) as [[| |] |];
    intros H; try discriminate H; reflexivity.
Qed.

Lemma SFcompare_nan_l y : SFcompare S754_nan y = None.
Proof. reflexivity. Qed.

Lemma SFcompare_nan_r x : SFcompare x S754_nan = None.
Proof. destruct x; reflexivity. Qed.

Lemma leb_not_nan (x y : float) :
  (x <=? y)%float = true ->
  Prim2SF x <> S754_nan /\ Prim2SF y <> S754_nan.
Proof.
  rewrite FloatAxioms.leb_spec. unfold SFleb. intros H.
  split; intros Hnan; rewrite Hnan in H;
    [rewrite SFcompare_nan_l in H | rewrite SFcompare_nan_r in H];
    discriminate H.
Qed.

Lemma ltb_not_nan (x y : float) :
  (x <? y)%float = true ->
  Prim2SF x <> S754_nan /\ Prim2SF y <> S754_nan.
Proof. intros H. apply leb_not_nan, ltb_leb, H. Qed.

Lemma mul_not_nan (x y : float) :
  Prim2SF (x * y)%float <> S754_nan -> Prim2SF x <> S754_nan.
Proof.
  rewrite FloatAxioms.mul_spec. intros H Hnan. apply H. rewrite Hnan. reflexivity.
Qed.

(** [min(1.0, x)] is at most 1.0, whatever [x] is. *)
Lemma py_min_one_bounded (x : float) : (py_min 1 x <=? 1)%float = true.
Proof.
  unfold py_min. destruct (x <? 1)%float eqn:Hlt.
  - now apply ltb_leb.
  - reflexivity.
Qed.

(** ** The progress helper, in full *)

Lemma update_progress_cases {R} w i total (st : state R) :
  _update_progress w i total st =
  if (float_of_nat total =? 0)%float then (Ok tt, st)
  else
    (Ok tt,
     {| suggestions := suggestions st;
        screen := screen st ++ [BarProgress (expected_fraction total i)] |}).
Proof.
  unfold _update_progress, try_except, bind, lift, truediv, emit, ret,
    expected_fraction.
  destruct (float_of_nat total =? 0)%float; [reflexivity |].
  cbn [fst snd]. destruct (bar_progress w _) as [[] | e]; reflexivity.
Qed.

(** X5.  [_update_progress] never raises, whatever the index, the total
    and the widget do, and it leaves the list of suggestions alone.  It
    calls [bar.progress] at most once, with a value that is at most 1.0
    and not NaN; with a total of 0 the division raises inside the [try]
    and the bar is not called at all. *)
Theorem update_progress_safe {R : Type} (w : World) (i total : nat)
  (st : state R) :
  fst (_update_progress w i total st) = Ok tt /\
  suggestions (snd (_update_progress w i total st)) = suggestions st /\
  (screen (snd (_update_progress w i total st)) = screen st \/
   exists x,
     screen (snd (_update_progress w i total st)) = screen st ++ [BarProgress x]
     /\ (x <=? 1)%float = true /\ is_nan x = false) /\
  _update_progress w i 0 st = (Ok tt, st).
Proof.
  rewrite !update_progress_cases.
  split; [now destruct (_ =? _)%float |].
  split; [now destruct (_ =? _)%float |].
  split; [ | reflexivity ].
  destruct (_ =? _)%float; [now left | right].
  exists (expected_fraction total i). split; [reflexivity |].
  pose proof (py_min_one_bounded
                (float_of_nat (i + 1) / float_of_nat total)%float) as Hle.
  split; [exact Hle |].
  unfold is_nan. apply negb_false_iff.
  destruct (leb_not_nan _ _ Hle) as [Hnan _].
  rewrite FloatAxioms.eqb_spec. unfold SFeqb.
  unfold expected_fraction in *.
  destruct (Prim2SF (py_min 1 (float_of_nat (i + 1) / float_of_nat total)))
    as [s | s | | s m e]; try reflexivity.
  - now destruct s.
  - contradiction.
  - cbn. rewrite Z.compare_refl, Pos.compare_cont_refl. now destruct s.
Qed.

(** ** The rows of the intraday table *)

Lemma intraday_row_origin w scr r :
  In r (table (find_intraday_opportunities w scr)) ->
  exists data i t frame b0 b1,
    yf_download_batch w = Ok data /\
    nth_error NIFTY_50_STOCKS i = Some t /\
    loc_ticker data t = Ok frame /\
    first_bar (on_date (today w i) frame) = Some b0 /\
    last_bar (on_date (today w i) frame) = Some b1 /\
    r = opportunity_row t (on_date (today w i) frame) b0 b1.
Proof.
  rewrite intraday_table.
  destruct (yf_download_batch w) as [data | e]; [ | intros [] ].
  intros Hin. apply in_flat_map in Hin.
  destruct Hin as ([i t] & Hit & Hrow).
  apply in_enumerate in Hit.
  rewrite intraday_rows_pick in Hrow.
  destruct (loc_ticker data t) as [frame | e] eqn:Hloc; [ | contradiction ].
  unfold intraday_pick in Hrow.
  destruct (first_bar _) as [b0 |] eqn:Hb0; [ | contradiction ].
  destruct (last_bar _) as [b1 |] eqn:Hb1; [ | contradiction ].
  destruct (_ && _); [ | contradiction ].
  destruct Hrow as [<- | []].
  now exists data, i, t, frame, b0, b1.
Qed.

(** X6.  In every row of the intraday table, CMP is the close of today's
    last bar, the entry is today's highest High plus 0.05, the stop loss is
    the open of today's first bar, the target is the entry plus 1.5 times
    the distance from stop to entry, each rendered as currency with two
    decimals, and the condition is the fixed label. *)
Theorem opportunity_fields (w : World) (scr : list ui_event)
  (r : OpportunityRecord) :
  In r (table (find_intraday_opportunities w scr)) ->
  exists data i frame b0 b1,
    yf_download_batch w = Ok data /\
    nth_error NIFTY_50_STOCKS i = Some (or_Stock r) /\
    loc_ticker data (or_Stock r) = Ok frame /\
    first_bar (on_date (today w i) frame) = Some b0 /\
    last_bar (on_date (today w i) frame) = Some b1 /\
    or_CMP r = (currency_prefix ++ format_2f (Close b1))%string /\
    or_Condition r = "Near Day High + Volume Spike"%string /\
    or_Entry r =
      (currency_prefix ++
       format_2f (series_max (column High (on_date (today w i) frame)) + 0.05)
      )%string /\
    or_Stop_Loss r = (currency_prefix ++ format_2f (Open b0))%string /\
    or_Target r =
      (currency_prefix ++
       format_2f
         (series_max (column High (on_date (today w i) frame)) + 0.05
          + (series_max (column High (on_date (today w i) frame)) + 0.05
             - Open b0) * 1.5))%string.
Proof.
  intros Hin.
  destruct (intraday_row_origin w scr r Hin)
    as (data & i & t & frame & b0 & b1 & Hbatch & Hnth & Hloc & Hb0 & Hb1 & ->).
  exists data, i, frame, b0, b1.
  cbn [opportunity_row or_Stock or_CMP or_Condition or_Entry or_Target
       or_Stop_Loss].
  now repeat split.
Qed.

(** X6 at the row of TCS.NS in the sample world. *)
Lemma opportunity_fields_witness :
  In sample_opportunity (table (find_intraday_opportunities sample_world [])) /\
  or_Target sample_opportunity = (currency_prefix ++ "112.62")%string /\
  exists data i frame b0 b1,
    yf_download_batch sample_world = Ok data /\
    nth_error NIFTY_50_STOCKS i = Some (or_Stock sample_opportunity) /\
    loc_ticker data (or_Stock sample_opportunity) = Ok frame /\
    first_bar (on_date (today sample_world i) frame) = Some b0 /\
    last_bar (on_date (today sample_world i) frame) = Some b1 /\
    or_CMP sample_opportunity = (currency_prefix ++ format_2f (Close b1))%string /\
    or_Condition sample_opportunity = "Near Day High + Volume Spike"%string /\
    or_Entry sample_opportunity =
      (currency_prefix ++
       format_2f
         (series_max (column High (on_date (today sample_world i) frame)) + 0.05)
      )%string /\
    or_Stop_Loss sample_opportunity =
      (currency_prefix ++ format_2f (Open b0))%string /\
    or_Target sample_opportunity =
      (currency_prefix ++
       format_2f
         (series_max (column High (on_date (today sample_world i) frame)) + 0.05
          + (series_max (column High (on_date (today sample_world i) frame))
             + 0.05 - Open b0) * 1.5))%string.
Proof.
  assert (In sample_opportunity
             (table (find_intraday_opportunities sample_world []))) as Hin
    by (vm_compute; left; reflexivity).
  split; [exact Hin |]. split; [reflexivity |].
  exact (opportunity_fields sample_world [] sample_opportunity Hin).
Defined.


(** ** The screens of the scans *)

(** X7.  The long-term scan calls its widgets in a fixed order: it creates
    the bar at 0 and the status line, then, for each ticker in turn, sets
    the status to "Analyzing <ticker> (<i+1>/97)...", shows the warning if
    the ticker failed, and advances the bar; it ends by setting the status
    to "Analysis Complete!".  Nothing else is shown. *)
Theorem long_term_screen (w : World) (scr : list ui_event) :
  snd (find_long_term_suggestions w scr) =
  scr ++ [StProgress 0; StEmpty]
  ++ flat_map
       (fun it : nat * string =>
          [StatusText (analyzing (snd it) (fst it)
                         (List.length NIFTY_100_STOCKS))]
          ++ match long_term_failure w (fst it) (snd it) with
             | Some e => [StWarning (long_term_warning (snd it) e)]
             | None => []
             end
          ++ [BarProgress (expected_fraction (List.length NIFTY_100_STOCKS)
                                             (fst it))])
       (enumerate NIFTY_100_STOCKS)
  ++ [StatusText "Analysis Complete!"].
Proof.
  rewrite long_term_run. cbn [snd app]. do 4 f_equal.
  apply flat_map_ext. intros [i t].
  rewrite long_term_calls_run, length_NIFTY_100. reflexivity.
Qed.

(** X8.  When the batch fetch returns, the intraday scan calls its widgets
    in a fixed order that does not depend on the fetched data: the bar at
    0, the status line, then per ticker the status "Analyzing <ticker>
    (<i+1>/50)..." and the bar, and finally "Analysis Complete!".  A ticker
    that is missing from the batch leaves no trace on the screen. *)
Theorem intraday_screen (w : World) (scr : list ui_event) (data : BatchFrame) :
  yf_download_batch w = Ok data ->
  snd (find_intraday_opportunities w scr) =
  scr ++ [StProgress 0; StEmpty]
  ++ flat_map
       (fun it : nat * string =>
          [StatusText (analyzing (snd it) (fst it)
                         (List.length NIFTY_50_STOCKS));
           BarProgress (expected_fraction (List.length NIFTY_50_STOCKS)
                                          (fst it))])
       (enumerate NIFTY_50_STOCKS)
  ++ [StatusText "Analysis Complete!"].
Proof.
  intros Hbatch. rewrite (intraday_run w scr data Hbatch).
  cbn [snd app]. do 4 f_equal.
  apply flat_map_ext. intros [i t].
  rewrite intraday_calls_run, length_NIFTY_50. reflexivity.
Qed.

(** X8 for the sample world and for a world whose batch has other bars
    and whose progress widget refuses: the screens are the same. *)
Lemma intraday_screen_witness :
  snd (find_intraday_opportunities sample_world []) =
  snd (find_intraday_opportunities other_yesterday_world []) /\
  List.length (snd (find_intraday_opportunities sample_world [])) = 103.
Proof.
  rewrite (intraday_screen sample_world [] sample_batch eq_refl).
  rewrite (intraday_screen other_yesterday_world [] other_yesterday_batch eq_refl).
  split; reflexivity.
Defined.

(** ** Rows and warnings of the long-term scan *)



(** X10.  The long-term scan warns about a ticker in exactly two cases:
    its fetch raised, or its series closes at zero within the threshold so
    that the upside percentage divides by zero.  An empty series and a
    series above the threshold are skipped without a word.  The warning
    names the ticker and the exception. *)
Theorem warning_causes (w : World) (s : string) :
  In s (warnings (snd (find_long_term_suggestions w []))) <->
  exists i t e,
    nth_error NIFTY_100_STOCKS i = Some t /\
    s = long_term_warning t e /\
    (yf_download w t = Raise e \/
     e = ZeroDivisionError "float division by zero" /\
     exists df b,
       yf_download w t = Ok df /\ last_bar df = Some b /\
       (Close b <=? series_min (column Low df) * 1.05)%float = true /\
       (Close b =? 0)%float = true).
Proof.
  rewrite long_term_warnings. cbn [warnings flat_map app].
  unfold owed_warnings. rewrite in_flat_map. split.
  - intros ([i t] & Hit & Hs). apply in_enumerate in Hit.
    cbn [fst snd] in Hs. rewrite long_term_failure_cases in Hs.
    exists i, t.
    destruct (yf_download w t) as [df | e] eqn:Hfetch.
    + destruct (last_bar df) as [b |] eqn:Hlast; [ | contradiction ].
      destruct (Close b <=? _)%float eqn:Hle; [ | contradiction ].
      destruct (Close b =? 0)%float eqn:Hz; [ | contradiction ].
      destruct Hs as [<- | []].
      exists (ZeroDivisionError "float division by zero").
      split; [exact Hit |]. split; [reflexivity |]. right.
      split; [reflexivity |]. now exists df, b.
    + destruct Hs as [<- | []]. exists e. auto.
  - intros (i & t & e & Hnth & -> & Hcause).
    exists (i, t). split; [now apply in_enumerate |].
    cbn [fst snd]. rewrite long_term_failure_cases.
    destruct Hcause as [Hfetch | (-> & df & b & Hfetch & Hlast & Hle & Hz)];
      rewrite Hfetch; [now left |].
    rewrite Hlast, Hle, Hz. now left.
Qed.

(** X10 in the sample world: ITC.NS cannot be fetched, INFY.NS closes at
    zero. *)
Lemma warning_causes_witness :
  In (long_term_warning "ITC.NS" (ProviderError "No data found"))
     (warnings (snd (find_long_term_suggestions sample_world []))) /\
  In (long_term_warning "INFY.NS"
        (ZeroDivisionError "float division by zero"))
     (warnings (snd (find_long_term_suggestions sample_world []))).
Proof.
  split; apply (proj2 (warning_causes sample_world _)).
  - exists 7, "ITC.NS"%string, (ProviderError "No data found").
    split; [reflexivity |]. split; [reflexivity |]. left. reflexivity.
  - exists 4, "INFY.NS"%string, (ZeroDivisionError "float division by zero").
    split; [reflexivity |]. split; [reflexivity |]. right.
    split; [reflexivity |].
    exists zero_frame, (bar 3 0 0 0 0 0). repeat split.
Defined.

(** ** Today's bars *)

Lemma intraday_rows_today w w' data data' i t :
  today w' i = today w i ->
  match loc_ticker data t, loc_ticker data' t with
  | Ok f, Ok f' => on_date (today w i) f = on_date (today w i) f'
  | Raise _, Raise _ => True
  | _, _ => False
  end ->
  intraday_rows w' data' (i, t) = intraday_rows w data (i, t).
Proof.
  intros Hclock Hsame. rewrite !intraday_rows_pick, Hclock.
  destruct (loc_ticker data t), (loc_ticker data' t);
    try contradiction; [now rewrite Hsame | reflexivity].
Qed.

(** X11.  The intraday scan reads the bars of the current date only,
    although it fetches two days: two batches that hold the same bars of
    today for every ticker of the universe (and lack the same tickers)
    give the same table, whatever bars of other days they hold.  The
    volume baseline in particular never reaches back into the day
    before. *)
Theorem today_bars_only (w w' : World) (scr scr' : list ui_event)
  (data data' : BatchFrame) :
  yf_download_batch w = Ok data ->
  yf_download_batch w' = Ok data' ->
  (forall i, today w' i = today w i) ->
  (forall i t, nth_error NIFTY_50_STOCKS i = Some t ->
     match loc_ticker data t, loc_ticker data' t with
     | Ok f, Ok f' => on_date (today w i) f = on_date (today w i) f'
     | Raise _, Raise _ => True
     | _, _ => False
     end) ->
  fst (find_intraday_opportunities w' scr') =
  fst (find_intraday_opportunities w scr).
Proof.
  intros Hbatch Hbatch' Hclock Hsame.
  rewrite (intraday_run w scr data Hbatch), (intraday_run w' scr' data' Hbatch').
  cbn [fst]. f_equal. apply flat_map_ext_in'. intros [i t] Hit.
  apply in_enumerate in Hit.
  apply intraday_rows_today; [apply Hclock | now apply Hsame].
Qed.

(** X11 for the sample batch and a batch with other bars before today. *)
Lemma today_bars_only_witness :
  fst (find_intraday_opportunities other_yesterday_world []) =
  fst (find_intraday_opportunities sample_world []).
Proof.
  apply (today_bars_only sample_world other_yesterday_world [] []
           sample_batch other_yesterday_batch);
    try reflexivity.
  intros i t _. cbn [loc_ticker sample_batch other_yesterday_batch].
  destruct (String.eqb "TCS.NS" t); [reflexivity |].
  destruct (String.eqb "INFY.NS" t); [reflexivity | exact I].
Defined.

(** ** The volume baseline *)

(** X12.  When today's bars have a Volume column and there are at least
    two of them, the average volume is the mean over the bars before the
    last one, at most nine of them and the most recent ones, and the last
    volume is that of the last bar: the last bar is never part of its own
    baseline. *)
Theorem volume_window (bars : PriceFrame) (front : list Bar) (b1 : Bar) :
  has_volume bars = true ->
  rows bars = front ++ [b1] ->
  front <> [] ->
  volume_stats bars =
  Ok (series_mean (skipn (List.length front - 9) (map Volume front)),
      Volume b1) /\
  List.length (skipn (List.length front - 9) (map Volume front))
  = Nat.min 9 (List.length front).
Proof.
  intros Hvol Hrows Hfront. split.
  - unfold volume_stats. rewrite Hvol, iloc_slice_prior_window.
    rewrite (column_snoc Volume bars front b1 Hrows), iloc_last.
    unfold prior_window. rewrite removelast_last, length_map.
    destruct (skipn _ _) as [| v win] eqn:Hwin; [ | reflexivity ].
    exfalso. apply (f_equal (@List.length _)) in Hwin.
    rewrite length_skipn, length_map in Hwin. cbn [List.length] in Hwin.
    assert (0 < List.length front)
      by (destruct front; [congruence | cbn [List.length]; lia]).
    lia.
  - rewrite length_skipn, length_map. lia.
Qed.

(** X12 on twelve bars: the baseline is the mean of the volumes 3 to 11. *)
Lemma volume_window_witness :
  volume_stats twelve_bars = Ok (7%float, 12%float).
Proof.
  destruct (volume_window twelve_bars (removelast (rows twelve_bars))
              (bar 7 100 101 99 100 12) eq_refl eq_refl)
    as [Hstats _]; [discriminate |].
  exact Hstats.
Defined.

(** ** An empty batch *)

(** X13.  If the batch holds no columns for any ticker of the universe,
    the intraday scan still works through all 50 tickers and returns an
    empty table: every extraction fails and is passed over in silence,
    and the bar is advanced once per ticker. *)
Theorem batch_without_tickers (w : World) (scr : list ui_event)
  (data : BatchFrame) :
  yf_download_batch w = Ok data ->
  (forall t, In t NIFTY_50_STOCKS -> is_raise (loc_ticker data t) = true) ->
  fst (find_intraday_opportunities w scr) = Ok [] /\
  warnings (snd (find_intraday_opportunities w scr)) = warnings scr /\
  progress_reports (snd (find_intraday_opportunities w scr)) =
    progress_reports scr ++ expected_progress (List.length NIFTY_50_STOCKS).
Proof.
  intros Hbatch Hnone.
  split; [ | split; [apply intraday_warnings | now apply (intraday_progress w scr data)] ].
  rewrite (intraday_run w scr data Hbatch). cbn [fst]. f_equal.
  rewrite (flat_map_ext_in' _ (fun _ => [])); [apply flat_map_nil |].
  intros [i t] Hit. apply in_enumerate, nth_error_In in Hit.
  rewrite intraday_rows_pick. specialize (Hnone t Hit).
  destruct (loc_ticker data t); [discriminate Hnone | reflexivity].
Qed.

(** X13 for the batch without columns. *)
Lemma batch_without_tickers_witness :
  fst (find_intraday_opportunities empty_batch_world []) = Ok [] /\
  warnings (snd (find_intraday_opportunities empty_batch_world [])) = [] /\
  progress_reports (snd (find_intraday_opportunities empty_batch_world [])) =
    expected_progress 50.
Proof.
  apply (batch_without_tickers empty_batch_world [] []); reflexivity.
Defined.

(** ** Rows show numbers *)

Lemma string_app_inv (p a b : string) :
  (p ++ a)%string = (p ++ b)%string -> a = b.
Proof.
  induction p as [| c p IH]; cbn; intros H; [exact H |].
  injection H as H. now apply IH.
Qed.

Lemma string_of_uint_starts_with_digit (d : Decimal.uint) (rest : string) :
  (NilZero.string_of_uint d ++ rest)%string <> "nan"%string.
Proof. destruct d; cbn; discriminate. Qed.

(** [:.2f] prints "nan" for NaN only. *)
Lemma format_2f_nan (x : float) :
  format_2f x = "nan"%string -> Prim2SF x = S754_nan.
Proof.
  unfold format_2f.
  destruct (Prim2SF x) as [s | s | | s m e]; try reflexivity;
    destruct s; cbn [sign_prefix append]; try discriminate.
  unfold fixed2. intros H. exfalso.
  exact (string_of_uint_starts_with_digit _ _ H).
Qed.

Lemma currency_not_nan (x : float) :
  Prim2SF x <> S754_nan -> currency x <> (currency_prefix ++ "nan")%string.
Proof.
  intros Hx H. unfold currency in H.
  apply string_app_inv, format_2f_nan in H. contradiction.
Qed.

Lemma not_nan_is_nan (x : float) : Prim2SF x <> S754_nan -> is_nan x = false.
Proof.
  intros Hx. unfold is_nan. apply negb_false_iff.
  rewrite FloatAxioms.eqb_spec. unfold SFeqb.
  destruct (Prim2SF x) as [s | s | | s m e]; try reflexivity.
  - now destruct s.
  - contradiction.
  - cbn. rewrite Z.compare_refl, Pos.compare_cont_refl. now destruct s.
Qed.

(** X14.  A price that decided a match is never NaN.  A series whose last
    close is NaN gets no row in either scan; and in the rows that are
    emitted CMP and the 52-week low (long-term), CMP and the stop loss
    (intraday) never read "nan". *)
Theorem rows_show_numbers (w : World) (scr : list ui_event) :
  (forall t df b,
     yf_download w t = Ok df -> last_bar df = Some b ->
     is_nan (Close b) = true ->
     ~ suggests (table (find_long_term_suggestions w scr)) t) /\
  (forall data i t frame b1,
     yf_download_batch w = Ok data ->
     nth_error NIFTY_50_STOCKS i = Some t ->
     loc_ticker data t = Ok frame ->
     last_bar (on_date (today w i) frame) = Some b1 ->
     is_nan (Close b1) = true ->
     ~ proposes (table (find_intraday_opportunities w scr)) t) /\
  (forall r, In r (table (find_long_term_suggestions w scr)) ->
     sr_CMP r <> (currency_prefix ++ "nan")%string /\
     sr_52Wk_Low r <> (currency_prefix ++ "nan")%string) /\
  (forall r, In r (table (find_intraday_opportunities w scr)) ->
     or_CMP r <> (currency_prefix ++ "nan")%string /\
     or_Stop_Loss r <> (currency_prefix ++ "nan")%string).
Proof.
  split; [ | split; [ | split ] ].
  - intros t df b Hfetch Hlast Hnan Hrow.
    apply long_term_suggests in Hrow. destruct Hrow as (i & _ & Hrows).
    rewrite long_term_rows_pick, Hfetch in Hrows.
    apply long_term_pick_rule in Hrows.
    destruct Hrows as [(b' & Hb' & Hle) _].
    assert (b' = b) by congruence. subst b'.
    destruct (leb_not_nan _ _ Hle) as [Hcmp _].
    rewrite (not_nan_is_nan _ Hcmp) in Hnan. discriminate.
  - intros data i t frame b1 Hbatch Hnth Hloc Hlast Hnan Hrow.
    apply (intraday_proposes_rule w scr data i t frame Hbatch Hnth Hloc) in Hrow.
    destruct Hrow as (_ & (c0 & c1 & _ & Hc1 & Hlt & _) & _).
    assert (c1 = b1) by congruence. subst c1.
    destruct (ltb_not_nan _ _ Hlt) as [_ Hclose].
    rewrite (not_nan_is_nan _ Hclose) in Hnan. discriminate.
  - intros r Hin.
    rewrite long_term_table in Hin. apply in_flat_map in Hin.
    destruct Hin as ([i t] & _ & Hrow).
    rewrite long_term_rows_pick in Hrow.
    destruct (yf_download w t) as [df | e]; [ | contradiction ].
    assert (long_term_pick t df <> []) as Hpick
      by (intros Hnil; rewrite Hnil in Hrow; contradiction).
    apply long_term_pick_rule in Hpick.
    destruct Hpick as [(b & Hb & Hle) _].
    unfold long_term_pick in Hrow. rewrite Hb in Hrow.
    destruct (_ && _); [ | contradiction ].
    destruct Hrow as [<- | []]. cbn [suggestion_row sr_CMP sr_52Wk_Low].
    destruct (leb_not_nan _ _ Hle) as [Hcmp Hlow].
    split; apply currency_not_nan; [exact Hcmp |].
    exact (mul_not_nan _ _ Hlow).
  - intros r Hin.
    rewrite intraday_table in Hin.
    destruct (yf_download_batch w) as [data | e]; [ | contradiction ].
    apply in_flat_map in Hin. destruct Hin as ([i t] & _ & Hrow).
    rewrite intraday_rows_pick in Hrow.
    destruct (loc_ticker data t) as [frame | e]; [ | contradiction ].
    set (bars := on_date (today w i) frame) in *.
    assert (intraday_pick t bars <> []) as Hpick
      by (intros Hnil; rewrite Hnil in Hrow; contradiction).
    apply intraday_pick_rule in Hpick.
    destruct Hpick as (_ & (b0 & b1 & Hb0 & Hb1 & Hlt & _) & _).
    unfold intraday_pick in Hrow. rewrite Hb0, Hb1 in Hrow.
    destruct (_ && _); [ | contradiction ].
    destruct Hrow as [<- | []]. cbn [opportunity_row or_CMP or_Stop_Loss].
    destruct (ltb_not_nan _ _ Hlt) as [Hopen Hclose].
    split; apply currency_not_nan; assumption.
Qed.

(** X14 in a world whose batch has a NaN close in the last bar of
    TCS.NS. *)
Lemma rows_show_numbers_witness :
  ~ proposes (table (find_intraday_opportunities nan_close_world [])) "TCS.NS" /\
  sr_CMP (suggestion_row "TCS.NS" year_example (bar 3 96 105 95 93 1000))
    <> (currency_prefix ++ "nan")%string.
Proof.
  destruct (rows_show_numbers nan_close_world []) as (_ & Hintra & _).
  destruct (rows_show_numbers sample_world []) as (_ & _ & Hlong & _).
  split.
  - apply (Hintra nan_close_batch 1 "TCS.NS"%string nan_close_day
             (bar 7 104 105 104 nan 1600)); reflexivity.
  - apply (Hlong (suggestion_row "TCS.NS" year_example (bar 3 96 105 95 93 1000))).
    vm_compute. left. reflexivity.
Defined.

(** ** The progress widget does not matter *)

Lemma long_term_run_ext w w' scr :
  (forall t, yf_download w' t = yf_download w t) ->
  find_long_term_suggestions w' scr = find_long_term_suggestions w scr.
Proof.
  intros Hsame. rewrite !long_term_run. f_equal.
  - f_equal. apply flat_map_ext. intros [i t].
    now rewrite !long_term_rows_pick, Hsame.
  - do 4 f_equal. apply flat_map_ext. intros [i t].
    now rewrite !long_term_calls_run, !long_term_failure_cases, Hsame.
Qed.

Lemma intraday_run_ext w w' scr :
  yf_download_batch w' = yf_download_batch w ->
  (forall i, today w' i = today w i) ->
  find_intraday_opportunities w' scr = find_intraday_opportunities w scr.
Proof.
  intros Hbatch Hclock.
  destruct (yf_download_batch w) as [data | e] eqn:Hw.
  - rewrite (intraday_run w scr data Hw), (intraday_run w' scr data Hbatch).
    f_equal.
    + f_equal. apply flat_map_ext. intros [i t].
      now rewrite !intraday_rows_pick, Hclock.
    + do 4 f_equal. apply flat_map_ext. intros [i t].
      now rewrite !intraday_calls_run.
  - now rewrite (intraday_abort w scr e Hw), (intraday_abort w' scr e Hbatch).
Qed.

(** X15.  A progress bar that refuses its updates changes nothing: two
    worlds that fetch the same data and show the same dates, whatever
    their progress widgets do, give the same table and the same sequence
    of widget calls in both scans. *)
Theorem progress_widget_irrelevant (w w' : World) (scr : list ui_event) :
  (forall t, yf_download w' t = yf_download w t) ->
  yf_download_batch w' = yf_download_batch w ->
  (forall i, today w' i = today w i) ->
  find_long_term_suggestions w' scr = find_long_term_suggestions w scr /\
  find_intraday_opportunities w' scr = find_intraday_opportunities w scr.
Proof.
  intros Hfetch Hbatch Hclock. split.
  - now apply long_term_run_ext.
  - now apply intraday_run_ext.
Qed.

(** X15 for the sample world and the same world with a bar that raises. *)
Lemma progress_widget_irrelevant_witness :
  find_long_term_suggestions refusing_bar_world [] =
    find_long_term_suggestions sample_world [] /\
  find_intraday_opportunities refusing_bar_world [] =
    find_intraday_opportunities sample_world [].
Proof.
  apply (progress_widget_irrelevant sample_world refusing_bar_world []);
    reflexivity.
Defined.
